(** * The restaurant-assistant notebook: booking tools and the streaming endpoint

    A shallow embedding of the Python code of
    [connecting-with-aws-services.ipynb]: the three booking tools
    ([get_booking_details], [delete_booking], [create_booking]) and the
    FastAPI endpoint [stream_response].

    The tools talk to services that live outside the notebook (the
    parameter store, the DynamoDB table, the operating system's random
    source, the agent SDK).  They are written here against an interface
    [Env] of those services, as the Python is written against boto3; the
    in-memory world [MemWorld] implements the interface with the documented
    behaviour of a key-value table, and a script of faults to inject. *)

From Stdlib Require Import NArith ZArith String Ascii HexString Lia.
From stdpp Require Import base option gmap strings pretty list fin_maps.

Local Open Scope string_scope.

(** ** Python: values, exceptions, slices *)

Module Py.

(** The values the notebook's dictionaries hold.  [Int] also stands for
    the number a table hands back for an integer attribute; [Other] is
    any object the code only passes along. *)
Inductive value : Type :=
| Str (s : string)
| Int (n : Z)
| Bool (b : bool)
| Other (repr : string).

(** A dict with string keys. *)
Abbreviation dict := (gmap string value).

(** Something raised.  [is_Exception] tells whether its class derives
    from [Exception] (every service and lookup error does) or only from
    [BaseException] (KeyboardInterrupt, SystemExit, a cancelled task);
    [str_exc] is what [str(e)] gives. *)
Record exc : Type := Exc { is_Exception : bool; str_exc : string }.

(** What a function whose declared type is [dict] can still hand back. *)
Inductive object : Type :=
| DictObj (d : dict)
| StrObj (s : string).

(** How a call ends. *)
Inductive outcome (A : Type) : Type :=
| Returned (a : A)
| Raised (e : exc).
Arguments Returned {A} a.
Arguments Raised {A} e.

(** [s[:n]], [s[a:b]] and [s[a:]]: a slice never fails, it stops where the
    string does. *)
Definition slice_to (n : nat) (s : string) : string := substring 0 n s.
Definition slice (a b : nat) (s : string) : string := substring a (b - a) s.
Definition slice_from (a : nat) (s : string) : string :=
  substring a (String.length s - a) s.

(** ['%x' % n] *)
Definition format_x (n : N) : string :=
  match n with
  | N0 => "0"
  | Npos p => HexString.Raw.of_pos p EmptyString
  end.

(** A run of [n] zeros, and ['%0<w>x' % n]: padded with zeros on the left
    up to width [w], never cut. *)
Fixpoint zeros (n : nat) : string :=
  match n with
  | O => EmptyString
  | S n' => String "0" (zeros n')
  end.

Definition format_0x (w : nat) (n : N) : string :=
  let s := format_x n in
  zeros (w - String.length s) ++ s.

(** [str(n)] for an integer. *)
Definition str_int (n : Z) : string := pretty n.

End Py.
Export Py.

(** ** The [uuid] module *)

Module uuid.

(** [UUID(bytes=os.urandom(16), version=4).int]: the sixteen random bytes
    read big-endian (a number below 2^128, here [rnd mod 2^128]), with
    the variant and version bits overwritten. *)
Definition uuid4 (rnd : N) : N :=
  let int := (rnd mod 2 ^ 128)%N in
  let int := N.ldiff int (N.shiftl 0xc000 48) in
  let int := N.lor int (N.shiftl 0x8000 48) in
  let int := N.ldiff int (N.shiftl 0xf000 64) in
  N.lor int (N.shiftl 4 76).

(** [UUID.__str__] *)
Definition str (int : N) : string :=
  let hex := format_0x 32 int in
  slice_to 8 hex ++ "-" ++ slice 8 12 hex ++ "-" ++ slice 12 16 hex
    ++ "-" ++ slice 16 20 hex ++ "-" ++ slice_from 20 hex.

End uuid.

(** ** Calls into the world

    A computation reads and changes the world [W] it runs in, and returns
    or raises. *)

Definition M (W A : Type) : Type := W -> outcome A * W.

Definition ret {W A : Type} (a : A) : M W A := fun w => (Returned a, w).

Definition bind {W A B : Type} (m : M W A) (k : A -> M W B) : M W B :=
  fun w =>
    match m w with
    | (Returned a, w') => k a w'
    | (Raised e, w') => (Raised e, w')
    end.

(** [try: body / except Exception as e: handler]: only what derives from
    [Exception] is caught. *)
Definition try_except {W A : Type} (body : M W A) (handler : exc -> M W A)
  : M W A :=
  fun w =>
    match body w with
    | (Returned a, w') => (Returned a, w')
    | (Raised e, w') =>
        if is_Exception e then handler e w' else (Raised e, w')
    end.

Notation "'let!' x ':=' m 'in' k" := (bind m (fun x => k))
  (at level 10, x pattern, m at level 100, k at level 200).

(** ** The services the notebook calls *)

(** What [table.get_item] answers: the key ["Item"] is there only when the
    item is. *)
Record GetItemOutput : Type := { Item : option dict }.

(** [response['ResponseMetadata']['HTTPStatusCode']] *)
Record DeleteItemOutput : Type := { HTTPStatusCode : Z }.

Class Env (W : Type) : Type := {
  (** [os.urandom(16)], read as a number *)
  urandom16 : M W N;
  print : string -> M W unit;
  (** [boto3.client('ssm').get_parameter(Name=..)["Parameter"]["Value"]] *)
  ssm_get_parameter : string -> M W string;
  (** [dynamodb.Table(name).get_item(Key=..)] and its siblings *)
  Table_get_item : string -> dict -> M W GetItemOutput;
  Table_put_item : string -> dict -> M W unit;
  Table_delete_item : string -> dict -> M W DeleteItemOutput
}.

(** ** The booking tools *)

Module ToolUse.
Record input_t : Type := {
  date : string;
  hour : string;
  restaurant_name : string;
  guest_name : string;
  num_guests : Z
}.
Record t : Type := { toolUseId : string; input : input_t }.
End ToolUse.

Module ToolResult.
Record block : Type := { text : string }.
Record t : Type := {
  toolUseId : string;
  status : string;
  content : list block
}.
End ToolResult.

Definition kb_name : string := "restaurant-assistant".

(** The [Key=] argument of a lookup or a delete. *)
Definition Key (booking_id restaurant_name : string) : dict :=
  {[ "booking_id" := Str booking_id;
     "restaurant_name" := Str restaurant_name ]}.

Section Tools.
Context {W : Type} `{Env W}.

(** The handle every tool works on: the table whose name the parameter
    store holds under [f'{kb_name}-table-name'].  Of the four lines that
    make it ([boto3.resource], [boto3.client], [get_parameter],
    [dynamodb.Table]) only [get_parameter] calls a service.  The notebook
    runs them once for its global [table]; [delete_booking] and
    [create_booking] run them on every call, before their [try]. *)
Definition open_table : M W string :=
  let! table_name := ssm_get_parameter (kb_name ++ "-table-name") in
  ret table_name.

(** [get_booking_details] works on the notebook's global [table]. *)
Definition get_booking_details (table : string)
    (booking_id restaurant_name : string) : M W object :=
  try_except
    (let! response :=
       Table_get_item table (Key booking_id restaurant_name) in
     match Item response with
     | Some item => ret (DictObj item)
     | None => ret (StrObj ("No booking found with ID " ++ booking_id))
     end)
    (fun e => ret (StrObj (str_exc e))).

Definition delete_booking (booking_id restaurant_name : string)
  : M W string :=
  let! table := open_table in
  try_except
    (let! response :=
       Table_delete_item table (Key booking_id restaurant_name) in
     if (HTTPStatusCode response =? 200)%Z
     then ret ("Booking with ID " ++ booking_id ++ " deleted successfully")
     else ret ("Failed to delete booking with ID " ++ booking_id))
    (fun e => ret (str_exc e)).

Definition create_booking (tool : ToolUse.t) : M W ToolResult.t :=
  let! table := open_table in
  let tool_use_id := ToolUse.toolUseId tool in
  let date := ToolUse.date (ToolUse.input tool) in
  let hour := ToolUse.hour (ToolUse.input tool) in
  let restaurant_name := ToolUse.restaurant_name (ToolUse.input tool) in
  let guest_name := ToolUse.guest_name (ToolUse.input tool) in
  let num_guests := ToolUse.num_guests (ToolUse.input tool) in
  let results :=
    "Creating reservation for " ++ str_int num_guests ++ " people at "
      ++ restaurant_name ++ ", " ++ date ++ " at " ++ hour
      ++ " in the name of " ++ guest_name in
  let! _ := print results in
  try_except
    (let! rnd := urandom16 in
     let booking_id := slice_to 8 (uuid.str (uuid.uuid4 rnd)) in
     let! _ :=
       Table_put_item table
         {[ "booking_id" := Str booking_id;
            "restaurant_name" := Str restaurant_name;
            "date" := Str date;
            "name" := Str guest_name;
            "hour" := Str hour;
            "num_guests" := Int num_guests ]} in
     ret {| ToolResult.toolUseId := tool_use_id;
            ToolResult.status := "success";
            ToolResult.content :=
              [ {| ToolResult.text :=
                     "Reservation created with booking id: " ++ booking_id |} ]
         |})
    (fun e =>
       ret {| ToolResult.toolUseId := tool_use_id;
              ToolResult.status := "error";
              ToolResult.content := [ {| ToolResult.text := str_exc e |} ] |}).

End Tools.

(** ** An in-memory world

    The parameter store is a map from names to values.  A table is a map
    from the primary key, the pair (booking_id, restaurant_name) of the
    table's key schema, to the item stored under it.  Its operations do
    what the DynamoDB API documents: PutItem replaces an item that has the
    same primary key, GetItem leaves out ["Item"] when there is none, and
    DeleteItem without a condition is idempotent, it answers 200 whether
    or not there was an item to delete.  [script] says what the coming
    service calls do, one entry a call: [None] answers, [Some e] raises [e]
    and changes nothing; calls past the end of the script answer.
    [entropy] holds the coming draws of the random source.

    Not every key and not every item is taken.  [client_rule] is what the
    client library raises for an item it cannot send (a number that does
    not fit DynamoDB's 38 digits), before any call is made.  [key_rule]
    gives the reason for which the table refuses a primary key in a
    lookup, a write or a delete (an empty attribute, one over the size
    limit), and [item_rule] the reason for which it refuses an item (its
    size): the call then raises a ValidationException and changes
    nothing.  The rules are part of the world, so what is proved holds
    for whatever the library and the table refuse; [boto3_rule],
    [dynamodb_key_rule] and [dynamodb_item_rule] below are the documented
    ones. *)

Record MemWorld : Type := {
  ssm : gmap string string;
  tables : gmap string (gmap (string * string) dict);
  script : list (option exc);
  entropy : list N;
  stdout : list string;
  client_rule : dict -> option exc;
  key_rule : string * string -> option string;
  item_rule : dict -> option string
}.

Definition with_tables (t : gmap string (gmap (string * string) dict))
    (w : MemWorld) : MemWorld :=
  {| ssm := ssm w; tables := t; script := script w;
     entropy := entropy w; stdout := stdout w;
     client_rule := client_rule w; key_rule := key_rule w;
     item_rule := item_rule w |}.

Definition with_script (l : list (option exc)) (w : MemWorld) : MemWorld :=
  {| ssm := ssm w; tables := tables w; script := l;
     entropy := entropy w; stdout := stdout w;
     client_rule := client_rule w; key_rule := key_rule w;
     item_rule := item_rule w |}.

Definition with_entropy (l : list N) (w : MemWorld) : MemWorld :=
  {| ssm := ssm w; tables := tables w; script := script w;
     entropy := l; stdout := stdout w;
     client_rule := client_rule w; key_rule := key_rule w;
     item_rule := item_rule w |}.

Definition with_stdout (l : list string) (w : MemWorld) : MemWorld :=
  {| ssm := ssm w; tables := tables w; script := script w;
     entropy := entropy w; stdout := l;
     client_rule := client_rule w; key_rule := key_rule w;
     item_rule := item_rule w |}.

(** A service call first takes its entry of the script. *)
Definition next_fault (w : MemWorld) : option exc :=
  match script w with
  | Some e :: _ => Some e
  | _ => None
  end.

Definition popped (w : MemWorld) : MemWorld :=
  with_script (tail (script w)) w.

Definition service {A : Type} (op : M MemWorld A) : M MemWorld A :=
  fun w =>
    match next_fault w with
    | Some e => (Raised e, popped w)
    | None => op (popped w)
    end.

Definition ClientError (code operation message : string) : exc :=
  {| is_Exception := true;
     str_exc := "An error occurred (" ++ code ++ ") when calling the "
                  ++ operation ++ " operation: " ++ message |}.

Definition ParameterNotFound : exc :=
  ClientError "ParameterNotFound" "GetParameter" "Parameter not found".

Definition ResourceNotFound (operation : string) : exc :=
  ClientError "ResourceNotFoundException" operation
    "Requested resource not found".

Definition KeyMismatch (operation : string) : exc :=
  ClientError "ValidationException" operation
    "The provided key element does not match the schema".

Definition ValidationException (operation reason : string) : exc :=
  ClientError "ValidationException" operation reason.

(** The primary key a dict carries, when it has both key attributes as
    strings. *)
Definition primary_key (d : dict) : option (string * string) :=
  match d !! "booking_id", d !! "restaurant_name" with
  | Some (Str b), Some (Str r) => Some (b, r)
  | _, _ => None
  end.

Definition mem_get_parameter (name : string) : M MemWorld string :=
  service (fun w =>
    match ssm w !! name with
    | Some v => (Returned v, w)
    | None => (Raised ParameterNotFound, w)
    end).

(** The table a call is about and the primary key it names, or what the
    call raises: the table is not there, the dict is no key of its
    schema, the table refuses the key. *)
Definition locate (operation table : string) (key : dict) (w : MemWorld)
  : exc + gmap (string * string) dict * (string * string) :=
  match tables w !! table with
  | None => inl (ResourceNotFound operation)
  | Some t =>
      match primary_key key with
      | None => inl (KeyMismatch operation)
      | Some k =>
          match key_rule w k with
          | Some reason => inl (ValidationException operation reason)
          | None => inr (t, k)
          end
      end
  end.

Definition mem_get_item (table : string) (key : dict)
  : M MemWorld GetItemOutput :=
  service (fun w =>
    match locate "GetItem" table key w with
    | inl e => (Raised e, w)
    | inr (t, k) => (Returned {| Item := t !! k |}, w)
    end).

Definition mem_put_item (table : string) (item : dict) : M MemWorld unit :=
  fun w =>
    match client_rule w item with
    | Some e => (Raised e, w)
    | None =>
        service (fun w =>
          match locate "PutItem" table item w with
          | inl e => (Raised e, w)
          | inr (t, k) =>
              match item_rule w item with
              | Some reason =>
                  (Raised (ValidationException "PutItem" reason), w)
              | None =>
                  (Returned tt,
                   with_tables (<[table := <[k := item]> t]> (tables w)) w)
              end
          end) w
    end.

Definition mem_delete_item (table : string) (key : dict)
  : M MemWorld DeleteItemOutput :=
  service (fun w =>
    match locate "DeleteItem" table key w with
    | inl e => (Raised e, w)
    | inr (t, k) =>
        (Returned {| HTTPStatusCode := 200 |},
         with_tables (<[table := delete k t]> (tables w)) w)
    end).

(** What boto3 and DynamoDB document.  A number is sent as a decimal of at
    most 38 digits: the serializer raises [decimal.Rounded], and
    [decimal.Inexact] when a digit that is dropped is not zero, for a
    longer one.  A key attribute is not empty, the partition key
    (booking_id) has at most 2048 bytes and the sort key (restaurant_name)
    at most 1024.  An item has at most 400 KB, counting the names and
    the values of its attributes (a number: a byte for two digits and one
    more). *)
Fixpoint digits_upto (fuel : nat) (n : Z) : nat :=
  match fuel with
  | O => 1
  | S fuel' => if (n <? 10)%Z then 1 else S (digits_upto fuel' (n / 10))
  end.

Definition digits (n : Z) : nat :=
  digits_upto (Z.to_nat (Z.log2 (Z.abs n))) (Z.abs n).

Definition decimal_error (n : Z) : option exc :=
  if (Z.abs n <? 10 ^ 38)%Z then None
  else if (Z.abs n mod 10 ^ Z.of_nat (digits n - 38) =? 0)%Z
  then Some {| is_Exception := true;
               str_exc := "[<class 'decimal.Rounded'>]" |}
  else Some {| is_Exception := true;
               str_exc := "[<class 'decimal.Inexact'>, <class 'decimal.Rounded'>]" |}.

Definition boto3_rule (item : dict) : option exc :=
  head (omap (fun '(_, v) => match v with
                           | Int n => decimal_error n
                           | _ => None
                           end) (map_to_list item)).

Definition dynamodb_key_rule (k : string * string) : option string :=
  if String.eqb k.1 EmptyString
  then Some "One or more parameter values are not valid. The AttributeValue for a key attribute cannot contain an empty string value. Key: booking_id"
  else if String.eqb k.2 EmptyString
  then Some "One or more parameter values are not valid. The AttributeValue for a key attribute cannot contain an empty string value. Key: restaurant_name"
  else if (2048 <? N.of_nat (String.length k.1))%N
  then Some "One or more parameter values were invalid: Size of hashkey has exceeded the maximum size limit of2048 bytes"
  else if (1024 <? N.of_nat (String.length k.2))%N
  then Some "One or more parameter values were invalid: Aggregated size of all range keys has exceeded the size limit of 1024 bytes"
  else None.

Definition value_size (v : value) : nat :=
  match v with
  | Str s => String.length s
  | Int n => S (Nat.div2 (S (digits n)))
  | Bool _ => 1
  | Other _ => 0
  end.

Definition item_size (item : dict) : nat :=
  foldr (fun '(name, v) size => (String.length name + value_size v + size)%nat)
    0%nat (map_to_list item).

Definition dynamodb_item_rule (item : dict) : option string :=
  if (409600 <? N.of_nat (item_size item))%N
  then Some "Item size has exceeded the maximum allowed size"
  else None.

Definition mem_urandom16 : M MemWorld N :=
  fun w => (Returned (hd 0%N (entropy w)), with_entropy (tail (entropy w)) w).

Definition mem_print (s : string) : M MemWorld unit :=
  fun w => (Returned tt, with_stdout (stdout w ++ [s]) w).

#[export] Instance MemWorld_Env : Env MemWorld := {
  urandom16 := mem_urandom16;
  print := mem_print;
  ssm_get_parameter := mem_get_parameter;
  Table_get_item := mem_get_item;
  Table_put_item := mem_put_item;
  Table_delete_item := mem_delete_item
}.

(** The item stored under a booking's compound key, if any. *)
Definition booking (w : MemWorld) (table booking_id restaurant_name : string)
  : option dict :=
  t ← tables w !! table; t !! (booking_id, restaurant_name).

(** ** The streaming endpoint *)

(** What iterating an async generator shows: some items, and then it is
    exhausted or it raises. *)
Inductive stream (A : Type) : Type :=
| Exhausted
| Yield (a : A) (rest : stream A)
| Raises (e : exc).
Arguments Exhausted {A}.
Arguments Yield {A} a rest.
Arguments Raises {A} e.

Record agent : Type := { stream_async : string -> stream dict }.

Record PromptRequest : Type := { prompt : string }.

Record Response : Type := {
  body_iterator : stream value;
  status_code : Z;
  media_type : string
}.

(** [StreamingResponse(content, status_code=200, media_type=None)] *)
Definition StreamingResponse (content : stream value) (media_type : string)
  : Response :=
  {| body_iterator := content; status_code := 200; media_type := media_type |}.

(** The [try] block of [generate]: the loop over the agent's events and
    its handler. *)
Fixpoint forward (events : stream dict) : stream value :=
  match events with
  | Exhausted => Exhausted
  | Yield event rest =>
      match event !! "data" with
      | Some data => Yield data (forward rest)
      | None => forward rest
      end
  | Raises e =>
      if is_Exception e
      then Yield (Str ("Error: " ++ str_exc e)) Exhausted
      else Raises e
  end.

Section Endpoint.
(** [Agent(tools=[...], callback_handler=None)], by the tools' names *)
Variable Agent : list string -> outcome agent.

Definition generate (request : PromptRequest) : stream value :=
  match Agent ["calculator"; "weather_forecast"] with
  | Raised e => Raises e
  | Returned agent => forward (stream_async agent (prompt request))
  end.

Definition stream_response (request : PromptRequest) : Response :=
  StreamingResponse (generate request) "text/plain".

End Endpoint.

(** The items of a stream, in order, and how it ends. *)
Fixpoint items {A : Type} (s : stream A) : list A :=
  match s with
  | Yield a rest => a :: items rest
  | _ => []
  end.

Fixpoint ending {A : Type} (s : stream A) : option exc :=
  match s with
  | Exhausted => None
  | Yield _ rest => ending rest
  | Raises e => Some e
  end.

(** A stream from its items and its ending. *)
Fixpoint stream_of {A : Type} (l : list A) (e : option exc) : stream A :=
  match l with
  | a :: l' => Yield a (stream_of l' e)
  | [] => match e with Some e => Raises e | None => Exhausted end
  end.

(** ** Worlds and requests to run the code on *)

(** The record [create_booking] writes for an identifier and an input, and
    the messages of the tools, for the statements below. *)
Definition booking_item (booking_id : string) (i : ToolUse.input_t) : dict :=
  {[ "booking_id" := Str booking_id;
     "restaurant_name" := Str (ToolUse.restaurant_name i);
     "date" := Str (ToolUse.date i);
     "name" := Str (ToolUse.guest_name i);
     "hour" := Str (ToolUse.hour i);
     "num_guests" := Int (ToolUse.num_guests i) ]}.

Definition not_found (booking_id : string) : string :=
  "No booking found with ID " ++ booking_id.

Definition deleted (booking_id : string) : string :=
  "Booking with ID " ++ booking_id ++ " deleted successfully".

Definition delete_failed (booking_id : string) : string :=
  "Failed to delete booking with ID " ++ booking_id.

Definition created (tool_use_id booking_id : string) : ToolResult.t :=
  {| ToolResult.toolUseId := tool_use_id;
     ToolResult.status := "success";
     ToolResult.content :=
       [ {| ToolResult.text :=
              "Reservation created with booking id: " ++ booking_id |} ] |}.

Definition create_failed (tool_use_id : string) (e : exc) : ToolResult.t :=
  {| ToolResult.toolUseId := tool_use_id;
     ToolResult.status := "error";
     ToolResult.content := [ {| ToolResult.text := str_exc e |} ] |}.

(** What [create_booking] prints. *)
Definition announcement (i : ToolUse.input_t) : string :=
  "Creating reservation for " ++ str_int (ToolUse.num_guests i)
    ++ " people at " ++ ToolUse.restaurant_name i ++ ", " ++ ToolUse.date i
    ++ " at " ++ ToolUse.hour i ++ " in the name of " ++ ToolUse.guest_name i.

(** The identifier made from a draw of the random source. *)
Definition id_of_draw (rnd : N) : string :=
  slice_to 8 (uuid.str (uuid.uuid4 rnd)).

Definition bookings_world (t : gmap (string * string) dict)
    (faults : list (option exc)) (draws : list N) : MemWorld :=
  {| ssm := {[ "restaurant-assistant-table-name" := "bookings" ]};
     tables := {[ "bookings" := t ]};
     script := faults;
     entropy := draws;
     stdout := [];
     client_rule := boto3_rule;
     key_rule := dynamodb_key_rule;
     item_rule := dynamodb_item_rule |}.

Definition anna : ToolUse.t :=
  {| ToolUse.toolUseId := "tooluse_1";
     ToolUse.input :=
       {| ToolUse.date := "2025-12-01";
          ToolUse.hour := "20:00";
          ToolUse.restaurant_name := "Rice & Spice";
          ToolUse.guest_name := "Anna";
          ToolUse.num_guests := 4 |} |}.

Definition anna_item : dict :=
  {[ "booking_id" := Str "01234567";
     "restaurant_name" := Str "Rice & Spice";
     "date" := Str "2025-12-01";
     "name" := Str "Anna";
     "hour" := Str "20:00";
     "num_guests" := Int 4 ]}.

(** An earlier booking that happens to have the identifier the next draw
    gives. *)
Definition bruno_item : dict :=
  {[ "booking_id" := Str "01234567";
     "restaurant_name" := Str "Rice & Spice";
     "date" := Str "2025-11-30";
     "name" := Str "Bruno";
     "hour" := Str "19:30";
     "num_guests" := Int 2 ]}.

Definition draw_0123 : N := 0x0123456789abcdef0123456789abcdef%N.

Definition throttled : exc :=
  ClientError "ProvisionedThroughputExceededException" "GetItem"
    "The level of configured provisioned throughput for the table was exceeded".

(** The table empty, with Anna's booking, with Bruno's; a draw waiting;
    the next call, or the one after it, failing. *)
Definition empty_world : MemWorld := bookings_world ∅ [] [].

Definition fresh_world : MemWorld := bookings_world ∅ [] [draw_0123].

Definition stored_world : MemWorld :=
  bookings_world {[ ("01234567", "Rice & Spice") := anna_item ]} [] [].

Definition taken_world : MemWorld :=
  bookings_world {[ ("01234567", "Rice & Spice") := bruno_item ]} []
    [draw_0123].

Definition failing_world : MemWorld := bookings_world ∅ [Some throttled] [].

Definition failing_later_world : MemWorld :=
  bookings_world ∅ [None; Some throttled] [].

(** A store that answers every delete with the status it is made of, and
    does nothing else. *)
Record ReplyWorld : Type := { reply_status : Z }.

#[export] Instance ReplyWorld_Env : Env ReplyWorld := {
  urandom16 := ret 0%N;
  print := fun _ => ret tt;
  ssm_get_parameter := fun _ => ret "bookings";
  Table_get_item := fun _ _ => ret {| Item := None |};
  Table_put_item := fun _ _ => ret tt;
  Table_delete_item :=
    fun _ _ w => (Returned {| HTTPStatusCode := reply_status w |}, w)
}.

(** Events as the agent emits them: lifecycle markers, text, a tool
    selection, and an agent that replays them and then ends as told. *)
Definition answers_200 : ReplyWorld := {| reply_status := 200 |}.

Definition answers_500 : ReplyWorld := {| reply_status := 500 |}.

Definition demo_events : list dict :=
  [ {[ "init_event_loop" := Bool true ]};
    {[ "data" := Str "Hello" ]};
    {[ "current_tool_use" := Other "{'name': 'calculator'}" ]};
    {[ "data" := Str " world"; "delta" := Other "{'text': ' world'}" ]};
    {[ "complete" := Bool true ]} ].

Definition replay (ending : option exc) : agent :=
  {| stream_async := fun _ => stream_of demo_events ending |}.

Definition model_timeout : exc :=
  {| is_Exception := true; str_exc := "Read timed out" |}.

Definition replaying (ending : option exc) (tools : list string)
  : outcome agent :=
  Returned (replay ending).

Definition say_hello : PromptRequest := {| prompt := "Say hello" |}.

(** Whether an event carries text. *)
Definition has_data (event : dict) : Prop := is_Some (event !! "data").

(** ** More of the notebook *)

(** Something raised that is no [Exception], and worlds where a service
    call meets it. *)
Definition interrupt : exc :=
  {| is_Exception := false; str_exc := "KeyboardInterrupt" |}.

Definition interrupted_world : MemWorld :=
  bookings_world ∅ [Some interrupt] [draw_0123].

Definition interrupted_later_world : MemWorld :=
  bookings_world ∅ [None; Some interrupt] [draw_0123].

(** Requests the table or the client library refuses: no restaurant
    name, a party of 10^38. *)
Definition nameless : ToolUse.t :=
  {| ToolUse.toolUseId := "tooluse_4";
     ToolUse.input :=
       {| ToolUse.date := "2025-12-01";
          ToolUse.hour := "20:00";
          ToolUse.restaurant_name := EmptyString;
          ToolUse.guest_name := "Anna";
          ToolUse.num_guests := 4 |} |}.

Definition crowd : ToolUse.t :=
  {| ToolUse.toolUseId := "tooluse_5";
     ToolUse.input :=
       {| ToolUse.date := "2025-12-01";
          ToolUse.hour := "20:00";
          ToolUse.restaurant_name := "Rice & Spice";
          ToolUse.guest_name := "Anna";
          ToolUse.num_guests := 10 ^ 38 |} |}.

(** Events put in front of a stream. *)
Fixpoint prepend {A : Type} (l : list A) (s : stream A) : stream A :=
  match l with
  | [] => s
  | a :: l' => Yield a (prepend l' s)
  end.

Definition failing_agent (tools : list string) : outcome agent :=
  Raised model_timeout.

(** ** Reading the whole table *)

(** What [table.scan] answers: a page of items and, when the scan stopped
    before the end, the key to go on from. *)
Record ScanOutput : Type := {
  Items : list dict;
  LastEvaluatedKey : option dict
}.

(** [dynamodb.Table(name).scan()] and
    [dynamodb.Table(name).scan(ExclusiveStartKey=key)] *)
Class Scannable (W : Type) : Type := {
  Table_scan : string -> option dict -> M W ScanOutput
}.

(** [pd.DataFrame(items)], kept as the records it is made from. *)
Inductive DataFrame : Type :=
| pd_DataFrame (data : list dict).

Section Scan.
Context {W : Type} `{Scannable W}.

(** The [while "LastEvaluatedKey" in response] loop, for at most [fuel]
    turns; [None] when the turns run out before the loop ends. *)
Fixpoint while_LastEvaluatedKey (fuel : nat) (table : string)
    (response : ScanOutput) (items : list dict) : M W (option (list dict)) :=
  match LastEvaluatedKey response with
  | None => ret (Some items)
  | Some key =>
      match fuel with
      | O => ret None
      | S fuel' =>
          let! response := Table_scan table (Some key) in
          while_LastEvaluatedKey fuel' table response
            (items ++ Items response)%list
      end
  end.

Definition selectAllFromDynamodb (fuel : nat) (table_name : string)
  : M W (option DataFrame) :=
  let table := table_name in
  let! response := Table_scan table None in
  let items := Items response in
  let! items := while_LastEvaluatedKey fuel table response items in
  ret (pd_DataFrame <$> items).

(** The table answers the scans that start at [start] with these pages,
    each but the last naming the key the next scan starts from. *)
Inductive serves (table : string)
  : option dict -> W -> list ScanOutput -> W -> Prop :=
| serves_last start w response w' :
    Table_scan table start w = (Returned response, w') ->
    LastEvaluatedKey response = None ->
    serves table start w [response] w'
| serves_more start w response key w1 responses w' :
    Table_scan table start w = (Returned response, w1) ->
    LastEvaluatedKey response = Some key ->
    serves table (Some key) w1 responses w' ->
    serves table start w (response :: responses) w'.

(** The table answers [n] scans with pages that go on, and the next scan
    raises [e]. *)
Inductive fails (table : string)
  : nat -> option dict -> W -> exc -> W -> Prop :=
| fails_now start w e w' :
    Table_scan table start w = (Raised e, w') ->
    fails table 0 start w e w'
| fails_later n start w response key w1 e w' :
    Table_scan table start w = (Returned response, w1) ->
    LastEvaluatedKey response = Some key ->
    fails table n (Some key) w1 e w' ->
    fails table (S n) start w e w'.

End Scan.

(** A table that serves its rows, each under its primary key, in pages
    of [page] rows; the key to go on from is the primary key of the last
    row served, and a scan that starts from a key serves the rows after
    the row of that key. *)
Record PagedTable : Type := {
  rows : list ((string * string) * dict);
  page : nat
}.

Fixpoint rows_after (k : string * string)
    (l : list ((string * string) * dict)) : list ((string * string) * dict) :=
  match l with
  | [] => []
  | (k', _) :: l' => if decide (k' = k) then l' else rows_after k l'
  end.

Definition page_of (p : nat) (remaining : list ((string * string) * dict))
  : ScanOutput :=
  {| Items := (take p remaining).*2;
     LastEvaluatedKey :=
       match drop p remaining, last (take p remaining) with
       | _ :: _, Some (k, _) => Some (Key k.1 k.2)
       | _, _ => None
       end |}.

Definition paged_scan (table : string) (start : option dict)
  : M PagedTable ScanOutput :=
  fun w =>
    match start with
    | None => (Returned (page_of (page w) (rows w)), w)
    | Some key =>
        match primary_key key with
        | Some k => (Returned (page_of (page w) (rows_after k (rows w))), w)
        | None => (Raised (KeyMismatch "Scan"), w)
        end
    end.

#[export] Instance PagedTable_Scannable : Scannable PagedTable := {
  Table_scan := paged_scan
}.

(** Three bookings served two at a time. *)
Definition carla_item : dict :=
  {[ "booking_id" := Str "89abcdef";
     "restaurant_name" := Str "Rice & Spice";
     "date" := Str "2025-12-02";
     "name" := Str "Carla";
     "hour" := Str "21:00";
     "num_guests" := Int 3 ]}.

Definition dario_item : dict :=
  {[ "booking_id" := Str "01234567";
     "restaurant_name" := Str "Bistro Parisienne";
     "date" := Str "2025-12-03";
     "name" := Str "Dario";
     "hour" := Str "12:30";
     "num_guests" := Int 6 ]}.

Definition three_bookings : PagedTable :=
  {| rows := [ (("01234567", "Rice & Spice"), anna_item);
               (("89abcdef", "Rice & Spice"), carla_item);
               (("01234567", "Bistro Parisienne"), dario_item) ];
     page := 2 |}.

(** A table whose second scan fails. *)
Record FlakyTable : Type := { scans_left : nat }.

#[export] Instance FlakyTable_Scannable : Scannable FlakyTable := {
  Table_scan := fun _ _ w =>
    match scans_left w with
    | O => (Raised throttled, w)
    | S n =>
        (Returned {| Items := [anna_item];
                     LastEvaluatedKey := Some (Key "01234567" "Rice & Spice") |},
         {| scans_left := n |})
    end
}.

(** ** Listing the tool calls of a conversation *)

Module Message.
Record tool_use : Type := {
  toolUseId : string;
  name : string;
  input : dict
}.
(** A content block, by the two keys the listing looks for; a block of
    text has neither. *)
Record block : Type := {
  toolUse : option tool_use;
  toolResult : option ToolResult.t
}.
Record t : Type := { content : list block }.
End Message.

Definition raise {W A : Type} (e : exc) : M W A := fun w => (Raised e, w).

(** [d[key]] on a dict without [key], [l[0]] on an empty list. *)
Definition KeyError (key : string) : exc :=
  {| is_Exception := true; str_exc := "'" ++ key ++ "'" |}.

Definition IndexError : exc :=
  {| is_Exception := true; str_exc := "list index out of range" |}.

Definition tab : string := String (ascii_of_nat 9) EmptyString.

Section ToolUsage.
Context {W : Type} `{Env W}.
(** [str] of a dict and of a list of blocks, as [print] shows them *)
Variable str_input : dict -> string.
Variable str_content : list ToolResult.block -> string.

(** [print(a, b)] *)
Definition print2 (a b : string) : M W unit := print (a ++ " " ++ b).

Fixpoint for_each {A : Type} (l : list A) (body : A -> M W unit) : M W unit :=
  match l with
  | [] => ret tt
  | a :: l' => let! _ := body a in for_each l' body
  end.

(** The body of the inner loop, for the block [content] of message [m]. *)
Definition print_block (m : Message.t) (content : Message.block) : M W unit :=
  let! _ :=
    match Message.toolUse content with
    | Some tool_use =>
        let! _ := print "Tool Use:" in
        let! _ := print2 (tab ++ "ToolUseId: ") (Message.toolUseId tool_use) in
        let! _ := print2 (tab ++ "name: ") (Message.name tool_use) in
        print2 (tab ++ "input: ") (str_input (Message.input tool_use))
    | None => ret tt
    end in
  match Message.toolResult content with
  | Some _ =>
      let! _ := print "Tool Result:" in
      let! tool_result :=
        match Message.content m with
        | [] => raise IndexError
        | first :: _ =>
            match Message.toolResult first with
            | Some tool_result => ret tool_result
            | None => raise (KeyError "toolResult")
            end
        end in
      let! _ :=
        print2 (tab ++ "ToolUseId: ") (ToolResult.toolUseId tool_result) in
      let! _ := print2 (tab ++ "Status: ") (ToolResult.status tool_result) in
      let! _ :=
        print2 (tab ++ "Content: ")
          (str_content (ToolResult.content tool_result)) in
      print "======================="
  | None => ret tt
  end.

(** [for m in agent.messages: for content in m["content"]: ...] *)
Definition print_tool_usage (messages : list Message.t) : M W unit :=
  for_each messages (fun m =>
    for_each (Message.content m) (fun content => print_block m content)).

End ToolUsage.

Definition has_toolResult (b : Message.block) : bool :=
  match Message.toolResult b with Some _ => true | None => false end.

(** A message whose first block carries a tool result if any of its
    blocks does. *)
Definition result_comes_first (m : Message.t) : bool :=
  match Message.content m with
  | [] => true
  | first :: others =>
      has_toolResult first || negb (existsb has_toolResult others)
  end.

(** Two blocks that differ at most in the tool result they carry, and two
    messages made of such blocks that start with the same tool result, if
    any. *)
Definition alike (b b' : Message.block) : Prop :=
  Message.toolUse b = Message.toolUse b'
  /\ has_toolResult b = has_toolResult b'.

Definition same_listing (m m' : Message.t) : Prop :=
  Forall2 alike (Message.content m) (Message.content m')
  /\ (Message.toolResult <$> head (Message.content m))
     = (Message.toolResult <$> head (Message.content m')).

(** A request to the calculator and its answer, a second answer, text. *)
Definition calculator_use : Message.block :=
  {| Message.toolUse :=
       Some {| Message.toolUseId := "tooluse_2";
               Message.name := "calculator";
               Message.input := {[ "expression" := Str "2+2" ]} |};
     Message.toolResult := None |}.

Definition result_block (r : ToolResult.t) : Message.block :=
  {| Message.toolUse := None; Message.toolResult := Some r |}.

Definition text_block : Message.block :=
  {| Message.toolUse := None; Message.toolResult := None |}.

Definition four : ToolResult.t :=
  {| ToolResult.toolUseId := "tooluse_2";
     ToolResult.status := "success";
     ToolResult.content := [ {| ToolResult.text := "Result: 4" |} ] |}.

Definition plain (d : dict) : string := "{...}".

Definition plain_content (c : list ToolResult.block) : string :=
  match c with
  | [b] => "[{'text': '" ++ ToolResult.text b ++ "'}]"
  | _ => "[...]"
  end.

Definition eight : ToolResult.t :=
  {| ToolResult.toolUseId := "tooluse_3";
     ToolResult.status := "error";
     ToolResult.content := [ {| ToolResult.text := "Result: 8" |} ] |}.

Definition two_results (second : ToolResult.t) : list Message.t :=
  [ {| Message.content := [ text_block; calculator_use ] |};
    {| Message.content := [ result_block four; result_block second ] |} ].

Definition text_then_result : list Message.t :=
  [ {| Message.content := [ text_block; result_block four ] |} ].

(** ** The characters of an identifier *)

Definition is_lower_hex (c : ascii) : bool :=
  existsb (Ascii.eqb c) (list_ascii_of_string "0123456789abcdef").

Fixpoint string_forallb (f : ascii -> bool) (s : string) : bool :=
  match s with
  | EmptyString => true
  | String c s' => f c && string_forallb f s'
  end.

(** A table that names a key to go on from in every answer. *)
Record EndlessTable : Type := { scans_made : nat }.

#[export] Instance EndlessTable_Scannable : Scannable EndlessTable := {
  Table_scan := fun _ _ w =>
    (Returned {| Items := [anna_item];
                 LastEvaluatedKey := Some (Key "01234567" "Rice & Spice") |},
     {| scans_made := S (scans_made w) |})
}.

(** * Properties *)

(** ** Slices and identifiers *)

Lemma length_substring_0 (n : nat) (s : string) :
  String.length (substring 0 n s) = Nat.min n (String.length s).
Proof.
  revert s. induction n as [|n IH]; intros [|c s]; simpl; auto.
Qed.

Lemma substring_0_append (n : nat) (s t : string) :
  (n <= String.length s)%nat -> substring 0 n (s ++ t) = substring 0 n s.
Proof.
  revert s. induction n as [|n IH]; intros [|c s] Hn; simpl in *;
    try reflexivity; try lia.
  - destruct t; reflexivity.
  - f_equal. apply IH. lia.
Qed.

Lemma substring_0_idem (n : nat) (s : string) :
  substring 0 n (substring 0 n s) = substring 0 n s.
Proof.
  revert s. induction n as [|n IH]; intros [|c s]; simpl; auto.
  f_equal. apply IH.
Qed.

Lemma length_append (s t : string) :
  String.length (s ++ t) = (String.length s + String.length t)%nat.
Proof. induction s as [|c s IH]; simpl; auto. Qed.

Lemma length_zeros (n : nat) : String.length (zeros n) = n.
Proof. induction n; simpl; auto. Qed.

Lemma length_format_0x (w : nat) (n : N) :
  (w <= String.length (format_0x w n))%nat.
Proof.
  unfold format_0x. rewrite length_append, length_zeros. lia.
Qed.

(** The first eight characters of a UUID's text are the first eight of its
    thirty-two (or more) hex digits. *)
Lemma uuid_str_slice_to_8 (int : N) :
  slice_to 8 (uuid.str int) = slice_to 8 (format_0x 32 int).
Proof.
  unfold uuid.str, slice_to.
  pose proof (length_format_0x 32 int) as Hlen.
  rewrite substring_0_append.
  - apply substring_0_idem.
  - rewrite length_substring_0. lia.
Qed.

Lemma booking_id_length (rnd : N) :
  String.length (slice_to 8 (uuid.str (uuid.uuid4 rnd))) = 8%nat.
Proof.
  rewrite uuid_str_slice_to_8. unfold slice_to.
  rewrite length_substring_0.
  pose proof (length_format_0x 32 (uuid.uuid4 rnd)). lia.
Qed.

(** ** The tools, step by step, in any world *)

Section Steps.
Context {W : Type} `{Env W}.

Lemma get_booking_details_step (table booking_id restaurant_name : string)
    (w : W) :
  get_booking_details table booking_id restaurant_name w =
  match Table_get_item table (Key booking_id restaurant_name) w with
  | (Returned response, w') =>
      (Returned match Item response with
                | Some item => DictObj item
                | None => StrObj (not_found booking_id)
                end, w')
  | (Raised e, w') =>
      if is_Exception e then (Returned (StrObj (str_exc e)), w')
      else (Raised e, w')
  end.
Proof.
  unfold get_booking_details, try_except, bind, ret, not_found.
  destruct (Table_get_item _ _ w) as [[response|e] w']; [|reflexivity].
  destruct (Item response); reflexivity.
Qed.

Lemma delete_booking_step (booking_id restaurant_name table : string)
    (w w1 : W) :
  open_table w = (Returned table, w1) ->
  delete_booking booking_id restaurant_name w =
  match Table_delete_item table (Key booking_id restaurant_name) w1 with
  | (Returned response, w2) =>
      (Returned (if (HTTPStatusCode response =? 200)%Z
                 then deleted booking_id else delete_failed booking_id), w2)
  | (Raised e, w2) =>
      if is_Exception e then (Returned (str_exc e), w2) else (Raised e, w2)
  end.
Proof.
  intros Hopen.
  unfold delete_booking, bind at 1. rewrite Hopen.
  unfold try_except, bind, ret, deleted, delete_failed.
  destruct (Table_delete_item _ _ w1) as [[response|e] w2]; [|reflexivity].
  destruct (HTTPStatusCode response =? 200)%Z; reflexivity.
Qed.

Lemma delete_booking_not_open (booking_id restaurant_name : string)
    (w w1 : W) (e : exc) :
  open_table w = (Raised e, w1) ->
  delete_booking booking_id restaurant_name w = (Raised e, w1).
Proof.
  intros Hopen. unfold delete_booking, bind at 1. rewrite Hopen. reflexivity.
Qed.

Lemma create_booking_step (tool : ToolUse.t) (table : string) (w w1 w2 : W) :
  open_table w = (Returned table, w1) ->
  print (announcement (ToolUse.input tool)) w1 = (Returned tt, w2) ->
  create_booking tool w =
  match urandom16 w2 with
  | (Returned rnd, w3) =>
      match Table_put_item table
              (booking_item (id_of_draw rnd) (ToolUse.input tool)) w3 with
      | (Returned _, w4) =>
          (Returned (created (ToolUse.toolUseId tool) (id_of_draw rnd)), w4)
      | (Raised e, w4) =>
          if is_Exception e
          then (Returned (create_failed (ToolUse.toolUseId tool) e), w4)
          else (Raised e, w4)
      end
  | (Raised e, w3) =>
      if is_Exception e
      then (Returned (create_failed (ToolUse.toolUseId tool) e), w3)
      else (Raised e, w3)
  end.
Proof.
  intros Hopen Hprint.
  unfold create_booking, bind at 1. rewrite Hopen.
  unfold bind at 1. fold (announcement (ToolUse.input tool)). rewrite Hprint.
  unfold try_except, bind, ret, created, create_failed, booking_item,
    id_of_draw.
  destruct (urandom16 w2) as [[rnd|e] w3]; [|reflexivity].
  destruct (Table_put_item _ _ w3) as [[[]|e] w4]; reflexivity.
Qed.

(** A result tagged "success" comes from a run in which every call
    answered, the write last. *)
Lemma create_booking_success_inv (tool : ToolUse.t) (w w' : W)
    (res : ToolResult.t) :
  create_booking tool w = (Returned res, w') ->
  ToolResult.status res = "success" ->
  exists table w1 w2 rnd w3,
    open_table w = (Returned table, w1)
    /\ print (announcement (ToolUse.input tool)) w1 = (Returned tt, w2)
    /\ urandom16 w2 = (Returned rnd, w3)
    /\ Table_put_item table
         (booking_item (id_of_draw rnd) (ToolUse.input tool)) w3
       = (Returned tt, w')
    /\ res = created (ToolUse.toolUseId tool) (id_of_draw rnd).
Proof.
  intros Hrun Hstatus.
  destruct (open_table w) as [[table|e] w1] eqn:Hopen.
  2:{ unfold create_booking, bind at 1 in Hrun. rewrite Hopen in Hrun.
      discriminate. }
  destruct (print (announcement (ToolUse.input tool)) w1) as [[[]|e] w2]
    eqn:Hprint.
  2:{ unfold create_booking, bind at 1 in Hrun. rewrite Hopen in Hrun.
      unfold bind at 1 in Hrun.
      fold (announcement (ToolUse.input tool)) in Hrun.
      rewrite Hprint in Hrun. discriminate. }
  rewrite (create_booking_step tool table w w1 w2 Hopen Hprint) in Hrun.
  destruct (urandom16 w2) as [[rnd|e] w3] eqn:Hrnd.
  - destruct (Table_put_item _ _ w3) as [[[]|e] w4] eqn:Hput.
    + inversion Hrun; subst. exists table, w1, w2, rnd, w3. auto.
    + destruct (is_Exception e); inversion Hrun; subst; discriminate.
  - destruct (is_Exception e); inversion Hrun; subst; discriminate.
Qed.

End Steps.

(** ** The in-memory world's calls *)

Lemma primary_key_Key (booking_id restaurant_name : string) :
  primary_key (Key booking_id restaurant_name)
  = Some (booking_id, restaurant_name).
Proof. reflexivity. Qed.

Lemma primary_key_booking_item (booking_id : string) (i : ToolUse.input_t) :
  primary_key (booking_item booking_id i)
  = Some (booking_id, ToolUse.restaurant_name i).
Proof. reflexivity. Qed.

Lemma mem_open_table (w : MemWorld) :
  open_table w =
  match next_fault w with
  | Some e => (Raised e, popped w)
  | None =>
      match ssm w !! "restaurant-assistant-table-name" with
      | Some table => (Returned table, popped w)
      | None => (Raised ParameterNotFound, popped w)
      end
  end.
Proof.
  unfold open_table, bind, ret. simpl. unfold mem_get_parameter, service.
  destruct (next_fault w); [reflexivity|]. simpl.
  destruct (ssm w !! _); reflexivity.
Qed.

Lemma mem_get_item_Key (table booking_id restaurant_name : string)
    (w : MemWorld) :
  Table_get_item table (Key booking_id restaurant_name) w =
  match next_fault w with
  | Some e => (Raised e, popped w)
  | None =>
      match tables w !! table with
      | Some t =>
          match key_rule w (booking_id, restaurant_name) with
          | Some reason =>
              (Raised (ValidationException "GetItem" reason), popped w)
          | None =>
              (Returned {| Item := t !! (booking_id, restaurant_name) |},
               popped w)
          end
      | None => (Raised (ResourceNotFound "GetItem"), popped w)
      end
  end.
Proof.
  simpl. unfold mem_get_item, service, locate.
  destruct (next_fault w); [reflexivity|].
  rewrite primary_key_Key. simpl.
  destruct (tables w !! table); [|reflexivity].
  destruct (key_rule w _); reflexivity.
Qed.

Lemma mem_delete_item_Key (table booking_id restaurant_name : string)
    (w : MemWorld) :
  Table_delete_item table (Key booking_id restaurant_name) w =
  match next_fault w with
  | Some e => (Raised e, popped w)
  | None =>
      match tables w !! table with
      | Some t =>
          match key_rule w (booking_id, restaurant_name) with
          | Some reason =>
              (Raised (ValidationException "DeleteItem" reason), popped w)
          | None =>
              (Returned {| HTTPStatusCode := 200 |},
               with_tables
                 (<[table := delete (booking_id, restaurant_name) t]>
                    (tables w))
                 (popped w))
          end
      | None => (Raised (ResourceNotFound "DeleteItem"), popped w)
      end
  end.
Proof.
  simpl. unfold mem_delete_item, service, locate.
  destruct (next_fault w); [reflexivity|].
  rewrite primary_key_Key. simpl.
  destruct (tables w !! table); [|reflexivity].
  destruct (key_rule w _); reflexivity.
Qed.

Lemma mem_put_booking_item (table booking_id : string) (i : ToolUse.input_t)
    (w : MemWorld) :
  Table_put_item table (booking_item booking_id i) w =
  match client_rule w (booking_item booking_id i) with
  | Some e => (Raised e, w)
  | None =>
      match next_fault w with
      | Some e => (Raised e, popped w)
      | None =>
          match tables w !! table with
          | Some t =>
              match key_rule w (booking_id, ToolUse.restaurant_name i) with
              | Some reason =>
                  (Raised (ValidationException "PutItem" reason), popped w)
              | None =>
                  match item_rule w (booking_item booking_id i) with
                  | Some reason =>
                      (Raised (ValidationException "PutItem" reason),
                       popped w)
                  | None =>
                      (Returned tt,
                       with_tables
                         (<[table := <[(booking_id, ToolUse.restaurant_name i)
                                        := booking_item booking_id i]> t]>
                            (tables w))
                         (popped w))
                  end
              end
          | None => (Raised (ResourceNotFound "PutItem"), popped w)
          end
      end
  end.
Proof.
  simpl. unfold mem_put_item, service, locate.
  destruct (client_rule w _); [reflexivity|].
  destruct (next_fault w); [reflexivity|].
  rewrite primary_key_booking_item. simpl.
  destruct (tables w !! table); [|reflexivity].
  destruct (key_rule w _); [reflexivity|].
  destruct (item_rule w _); reflexivity.
Qed.

(** What a lookup gives when its call answers. *)
Lemma mem_get_booking_details (table booking_id restaurant_name : string)
    (w : MemWorld) (t : gmap (string * string) dict) :
  next_fault w = None ->
  tables w !! table = Some t ->
  key_rule w (booking_id, restaurant_name) = None ->
  get_booking_details table booking_id restaurant_name w =
  (Returned match t !! (booking_id, restaurant_name) with
            | Some item => DictObj item
            | None => StrObj (not_found booking_id)
            end, popped w).
Proof.
  intros Hnext Ht Hkey.
  rewrite get_booking_details_step, mem_get_item_Key, Hnext, Ht, Hkey.
  reflexivity.
Qed.

(** A successful [create_booking] in the in-memory world: the parameter
    and the table were there, both service calls answered, and the table
    now holds the new record under its compound key. *)
Lemma mem_create_booking_inv (tool : ToolUse.t) (w w' : MemWorld)
    (res : ToolResult.t) :
  create_booking tool w = (Returned res, w') ->
  ToolResult.status res = "success" ->
  let booking_id := id_of_draw (hd 0%N (entropy w)) in
  let i := ToolUse.input tool in
  exists table t,
    ssm w !! "restaurant-assistant-table-name" = Some table
    /\ tables w !! table = Some t
    /\ res = created (ToolUse.toolUseId tool) booking_id
    /\ tables w' =
         <[table := <[(booking_id, ToolUse.restaurant_name i)
                       := booking_item booking_id i]> t]> (tables w)
    /\ script w' = tail (tail (script w))
    /\ key_rule w (booking_id, ToolUse.restaurant_name i) = None
    /\ key_rule w' = key_rule w.
Proof.
  intros Hrun Hstatus booking_id i.
  destruct (create_booking_success_inv tool w w' res Hrun Hstatus)
    as (table & w1 & w2 & rnd & w3 & Hopen & Hprint & Hrnd & Hput & Hres).
  rewrite mem_open_table in Hopen.
  destruct (next_fault w); [discriminate|].
  destruct (ssm w !! "restaurant-assistant-table-name") as [table'|] eqn:Hssm;
    [|discriminate].
  inversion Hopen; subst table' w1; clear Hopen.
  simpl in Hprint. unfold mem_print in Hprint.
  inversion Hprint; subst w2; clear Hprint.
  simpl in Hrnd. unfold mem_urandom16 in Hrnd. simpl in Hrnd.
  inversion Hrnd; subst rnd w3; clear Hrnd.
  rewrite mem_put_booking_item in Hput.
  destruct (client_rule _ _); [discriminate|].
  destruct (next_fault _); [discriminate|].
  simpl in Hput.
  destruct (tables w !! table) as [t|] eqn:Ht; [|discriminate].
  destruct (key_rule w _) eqn:Hkey; [discriminate|].
  destruct (item_rule w _); [discriminate|].
  inversion Hput; subst w'; clear Hput.
  exists table, t. repeat split; auto.
Qed.

Lemma booking_after_put (w' : MemWorld) (tbls : gmap string (gmap (string * string) dict))
    (table : string) (t : gmap (string * string) dict)
    (k : string * string) (item : dict) :
  tables w' = <[table := <[k := item]> t]> tbls ->
  booking w' table k.1 k.2 = Some item
  /\ forall booking_id restaurant_name,
       (booking_id, restaurant_name) <> k ->
       booking w' table booking_id restaurant_name
       = t !! (booking_id, restaurant_name).
Proof.
  intros Htables. unfold booking. rewrite Htables, lookup_insert_eq. simpl.
  destruct k as [b r]. simpl. split.
  - apply lookup_insert_eq.
  - intros b' r' Hne. apply lookup_insert_ne. congruence.
Qed.

(** ** Creating a booking *)

(** C8.  A successful [create_booking] hands back a result tagged
    "success" whose text ends in the identifier it generated, the one it
    wrote to the table as the record's "booking_id", and that identifier,
    the first eight characters of a random UUID's text, is exactly 8
    characters long. *)
Theorem create_booking_id_has_8_chars {W : Type} `{Env W}
    (tool : ToolUse.t) (w w' : W) (res : ToolResult.t) :
  create_booking tool w = (Returned res, w') ->
  ToolResult.status res = "success" ->
  exists booking_id : string,
    ToolResult.content res =
      [ {| ToolResult.text :=
             "Reservation created with booking id: " ++ booking_id |} ]
    /\ String.length booking_id = 8%nat
    /\ (exists rnd (w2 w3 : W),
          urandom16 w2 = (Returned rnd, w3)
          /\ booking_id = slice_to 8 (uuid.str (uuid.uuid4 rnd)))
    /\ (exists table item (w3 : W),
          Table_put_item table item w3 = (Returned tt, w')
          /\ item !! "booking_id" = Some (Str booking_id)).
Proof.
  intros Hrun Hstatus.
  destruct (create_booking_success_inv tool w w' res Hrun Hstatus)
    as (table & w1 & w2 & rnd & w3 & _ & _ & Hrnd & Hput & ->).
  exists (id_of_draw rnd). split; [reflexivity|].
  split; [apply booking_id_length|]. split.
  - exists rnd, w2, w3. split; [assumption|reflexivity].
  - exists table, (booking_item (id_of_draw rnd) (ToolUse.input tool)), w3.
    split; [assumption|reflexivity].
Qed.

Lemma create_booking_id_has_8_chars_witness :
  create_booking anna fresh_world
    = (Returned (created "tooluse_1" "01234567"),
       snd (create_booking anna fresh_world))
  /\ ToolResult.status (created "tooluse_1" "01234567") = "success"
  /\ exists booking_id : string,
       ToolResult.content (created "tooluse_1" "01234567") =
         [ {| ToolResult.text :=
                "Reservation created with booking id: " ++ booking_id |} ]
       /\ String.length booking_id = 8%nat
       /\ (exists rnd (w2 w3 : MemWorld),
             urandom16 w2 = (Returned rnd, w3)
             /\ booking_id = slice_to 8 (uuid.str (uuid.uuid4 rnd)))
       /\ (exists table item (w3 : MemWorld),
             Table_put_item table item w3
               = (Returned tt, snd (create_booking anna fresh_world))
             /\ item !! "booking_id" = Some (Str booking_id)).
Proof.
  assert (Hrun : create_booking anna fresh_world
                 = (Returned (created "tooluse_1" "01234567"),
                    snd (create_booking anna fresh_world)))
    by (reflexivity).
  split; [exact Hrun|]. split; [reflexivity|].
  exact (create_booking_id_has_8_chars anna fresh_world
           (snd (create_booking anna fresh_world))
           (created "tooluse_1" "01234567") Hrun eq_refl).
Defined.

(** C1, as the code has it.  A successful [create_booking] makes its
    identifier from a random draw alone, without looking at the table: it
    writes the record under the compound key (identifier, restaurant
    name), in the place of whatever that key held, leaves every other key
    as it was, and a lookup with that identifier and restaurant name, when
    its call answers, returns the record, whose attributes carry the five
    input values. *)
Theorem create_booking_then_lookup (tool : ToolUse.t) (w w' : MemWorld)
    (res : ToolResult.t) :
  create_booking tool w = (Returned res, w') ->
  ToolResult.status res = "success" ->
  let i := ToolUse.input tool in
  let booking_id := slice_to 8 (uuid.str (uuid.uuid4 (hd 0%N (entropy w)))) in
  exists (table : string) (item : dict),
    ssm w !! "restaurant-assistant-table-name" = Some table
    /\ ToolResult.content res =
         [ {| ToolResult.text :=
                "Reservation created with booking id: " ++ booking_id |} ]
    /\ booking w' table booking_id (ToolUse.restaurant_name i) = Some item
    /\ (forall id' r',
          (id', r') <> (booking_id, ToolUse.restaurant_name i) ->
          booking w' table id' r' = booking w table id' r')
    /\ (next_fault w' = None ->
        fst (get_booking_details table booking_id (ToolUse.restaurant_name i) w')
        = Returned (DictObj item))
    /\ item !! "booking_id" = Some (Str booking_id)
    /\ item !! "restaurant_name" = Some (Str (ToolUse.restaurant_name i))
    /\ item !! "date" = Some (Str (ToolUse.date i))
    /\ item !! "hour" = Some (Str (ToolUse.hour i))
    /\ item !! "name" = Some (Str (ToolUse.guest_name i))
    /\ item !! "num_guests" = Some (Int (ToolUse.num_guests i)).
Proof.
  intros Hrun Hstatus i booking_id.
  destruct (mem_create_booking_inv tool w w' res Hrun Hstatus)
    as (table & t & Hssm & Ht & -> & Htables & _ & Hkey & Hrule).
  fold i in Htables, Hkey.
  fold (id_of_draw (hd 0%N (entropy w))) in booking_id.
  fold booking_id in Htables, Hkey. rewrite <- Hrule in Hkey.
  destruct (booking_after_put w' _ _ _ _ _ Htables) as [Hnew Hother].
  simpl in Hnew.
  exists table, (booking_item booking_id i).
  split; [assumption|]. split; [reflexivity|]. split; [assumption|].
  split; [|split; [|repeat split]].
  - intros id' r' Hne. rewrite (Hother id' r' Hne).
    unfold booking. rewrite Ht. reflexivity.
  - intros Hnext.
    unfold booking in Hnew.
    destruct (tables w' !! table) as [t'|] eqn:Ht'; [|discriminate].
    simpl in Hnew.
    rewrite (mem_get_booking_details table _ _ w' t' Hnext Ht' Hkey), Hnew.
    reflexivity.
Qed.

Lemma create_booking_then_lookup_witness :
  create_booking anna fresh_world
    = (Returned (created "tooluse_1" "01234567"),
       snd (create_booking anna fresh_world))
  /\ ToolResult.status (created "tooluse_1" "01234567") = "success"
  /\ exists (table : string) (item : dict),
       booking (snd (create_booking anna fresh_world)) table
         "01234567" "Rice & Spice" = Some item
       /\ (next_fault (snd (create_booking anna fresh_world)) = None ->
           fst (get_booking_details table "01234567" "Rice & Spice"
                  (snd (create_booking anna fresh_world)))
           = Returned (DictObj item))
       /\ item !! "date" = Some (Str "2025-12-01")
       /\ item !! "hour" = Some (Str "20:00")
       /\ item !! "name" = Some (Str "Anna")
       /\ item !! "num_guests" = Some (Int 4).
Proof.
  assert (Hrun : create_booking anna fresh_world
                 = (Returned (created "tooluse_1" "01234567"),
                    snd (create_booking anna fresh_world)))
    by (reflexivity).
  split; [exact Hrun|]. split; [reflexivity|].
  destruct (create_booking_then_lookup anna fresh_world _ _ Hrun eq_refl)
    as (table & item & _ & _ & Hnew & _ & Hget & _ & _ & Hd & Hh & Hn & Hg).
  exists table, item.
  split; [exact Hnew|]. split; [exact Hget|].
  split; [exact Hd|]. split; [exact Hh|]. split; [exact Hn|exact Hg].
Defined.

(** C1 as the specification states it fails: the identifier is eight hex digits of
    a random UUID and nothing compares it with the table.  Here the draw
    gives 01234567, under which Rice & Spice already holds Bruno's
    booking: [create_booking] reports success with that identifier and
    Anna's record takes the place of Bruno's. *)
Lemma create_booking_identifier_already_present :
  booking taken_world "bookings" "01234567" "Rice & Spice" = Some bruno_item
  /\ fst (create_booking anna taken_world)
     = Returned
         {| ToolResult.toolUseId := "tooluse_1";
            ToolResult.status := "success";
            ToolResult.content :=
              [ {| ToolResult.text :=
                     "Reservation created with booking id: 01234567" |} ] |}
  /\ booking (snd (create_booking anna taken_world)) "bookings"
       "01234567" "Rice & Spice"
     = Some anna_item
  /\ ~ (forall (tool : ToolUse.t) (w0 w1 : MemWorld) (id : string),
          create_booking tool w0
            = (Returned (created (ToolUse.toolUseId tool) id), w1) ->
          booking w0 "bookings" id
            (ToolUse.restaurant_name (ToolUse.input tool)) = None).
Proof.
  assert (Hrun : create_booking anna taken_world
                 = (Returned (created "tooluse_1" "01234567"),
                    snd (create_booking anna taken_world)))
    by (reflexivity).
  split; [reflexivity|].
  split; [reflexivity|].
  split; [reflexivity|].
  intros Hfresh. specialize (Hfresh anna taken_world _ "01234567" Hrun).
  vm_compute in Hfresh. discriminate.
Qed.

(** C9.  The record a successful [create_booking] stores has exactly the
    attributes booking_id, restaurant_name, date, name, hour and
    num_guests: the guest's name is under "name", there is no
    "guest_name", the other inputs are under their parameter names, and
    that record is what a lookup that answers returns. *)
Theorem create_booking_stores_guest_under_name (tool : ToolUse.t)
    (w w' : MemWorld) (res : ToolResult.t) :
  create_booking tool w = (Returned res, w') ->
  ToolResult.status res = "success" ->
  let i := ToolUse.input tool in
  exists (table booking_id : string) (item : dict),
    booking w' table booking_id (ToolUse.restaurant_name i) = Some item
    /\ item !! "name" = Some (Str (ToolUse.guest_name i))
    /\ item !! "guest_name" = None
    /\ item !! "booking_id" = Some (Str booking_id)
    /\ item !! "restaurant_name" = Some (Str (ToolUse.restaurant_name i))
    /\ item !! "date" = Some (Str (ToolUse.date i))
    /\ item !! "hour" = Some (Str (ToolUse.hour i))
    /\ item !! "num_guests" = Some (Int (ToolUse.num_guests i))
    /\ dom item =
         {[ "booking_id"; "restaurant_name"; "date"; "name"; "hour";
            "num_guests" ]}
    /\ (next_fault w' = None ->
        fst (get_booking_details table booking_id (ToolUse.restaurant_name i) w')
        = Returned (DictObj item)).
Proof.
  intros Hrun Hstatus i.
  destruct (mem_create_booking_inv tool w w' res Hrun Hstatus)
    as (table & t & Hssm & Ht & -> & Htables & _ & Hkey & Hrule).
  fold i in Htables, Hkey.
  set (booking_id := id_of_draw (hd 0%N (entropy w))) in *.
  rewrite <- Hrule in Hkey.
  destruct (booking_after_put w' _ _ _ _ _ Htables) as [Hnew _].
  simpl in Hnew.
  exists table, booking_id, (booking_item booking_id i).
  split; [assumption|].
  do 7 (split; [reflexivity|]).
  split.
  - unfold booking_item. rewrite !dom_insert_L, dom_singleton_L.
    set_solver.
  - intros Hnext.
    unfold booking in Hnew.
    destruct (tables w' !! table) as [t'|] eqn:Ht'; [|discriminate].
    simpl in Hnew.
    rewrite (mem_get_booking_details table _ _ w' t' Hnext Ht' Hkey), Hnew.
    reflexivity.
Qed.

Lemma create_booking_stores_guest_under_name_witness :
  create_booking anna fresh_world
    = (Returned (created "tooluse_1" "01234567"),
       snd (create_booking anna fresh_world))
  /\ ToolResult.status (created "tooluse_1" "01234567") = "success"
  /\ exists (table booking_id : string) (item : dict),
       booking (snd (create_booking anna fresh_world)) table booking_id
         "Rice & Spice" = Some item
       /\ item !! "name" = Some (Str "Anna")
       /\ item !! "guest_name" = None.
Proof.
  assert (Hrun : create_booking anna fresh_world
                 = (Returned (created "tooluse_1" "01234567"),
                    snd (create_booking anna fresh_world)))
    by (reflexivity).
  split; [exact Hrun|]. split; [reflexivity|].
  destruct (create_booking_stores_guest_under_name anna fresh_world _ _
              Hrun eq_refl)
    as (table & booking_id & item & Hnew & Hname & Hguest & _).
  exists table, booking_id, item.
  split; [exact Hnew|]. split; [exact Hname|exact Hguest].
Defined.

(** ** Looking up a booking *)

(** C3.  [get_booking_details] on the table.  When the get-item call
    answers (no fault, and the table takes the pair as a key) and a record
    is stored under (booking_id, restaurant_name), that record is
    returned; when it answers and the table has no such record, the text
    "No booking found with ID <booking_id>" is returned; when the call
    raises an exception, its [str] is returned and nothing is raised, as
    for a pair the table refuses as a key (an empty booking_id), for which
    the text of the ValidationException comes back. *)
Theorem get_booking_details_cases (table booking_id restaurant_name : string)
    (w : MemWorld) :
  (forall item : dict,
     next_fault w = None ->
     key_rule w (booking_id, restaurant_name) = None ->
     booking w table booking_id restaurant_name = Some item ->
     fst (get_booking_details table booking_id restaurant_name w)
     = Returned (DictObj item))
  /\ (next_fault w = None ->
      key_rule w (booking_id, restaurant_name) = None ->
      is_Some (tables w !! table) ->
      booking w table booking_id restaurant_name = None ->
      fst (get_booking_details table booking_id restaurant_name w)
      = Returned (StrObj ("No booking found with ID " ++ booking_id)))
  /\ (forall e : exc,
        fst (Table_get_item table (Key booking_id restaurant_name) w)
        = Raised e ->
        is_Exception e = true ->
        fst (get_booking_details table booking_id restaurant_name w)
        = Returned (StrObj (str_exc e)))
  /\ (forall reason : string,
        next_fault w = None ->
        is_Some (tables w !! table) ->
        key_rule w (booking_id, restaurant_name) = Some reason ->
        fst (get_booking_details table booking_id restaurant_name w)
        = Returned (StrObj
                      ("An error occurred (ValidationException) when calling the GetItem operation: "
                         ++ reason))).
Proof.
  split; [|split; [|split]].
  - intros item Hnext Hkey Hitem. unfold booking in Hitem.
    destruct (tables w !! table) as [t|] eqn:Ht; [|discriminate].
    simpl in Hitem.
    rewrite (mem_get_booking_details _ _ _ w t Hnext Ht Hkey), Hitem.
    reflexivity.
  - intros Hnext Hkey [t Ht] Hitem. unfold booking in Hitem.
    rewrite Ht in Hitem. simpl in Hitem.
    rewrite (mem_get_booking_details _ _ _ w t Hnext Ht Hkey), Hitem.
    reflexivity.
  - intros e Hraise HE. rewrite get_booking_details_step.
    destruct (Table_get_item _ _ w) as [[response|e'] w1]; simpl in Hraise;
      [discriminate|].
    inversion Hraise; subst e'. rewrite HE. reflexivity.
  - intros reason Hnext [t Ht] Hkey.
    rewrite get_booking_details_step, mem_get_item_Key, Hnext, Ht, Hkey.
    reflexivity.
Qed.

Lemma get_booking_details_cases_witness :
  fst (get_booking_details "bookings" "01234567" "Rice & Spice" stored_world)
    = Returned (DictObj anna_item)
  /\ fst (get_booking_details "bookings" "01234567" "Rice & Spice" empty_world)
     = Returned (StrObj "No booking found with ID 01234567")
  /\ fst (get_booking_details "bookings" "01234567" "Rice & Spice"
            failing_world)
     = Returned (StrObj (str_exc throttled))
  /\ fst (get_booking_details "bookings" EmptyString "Rice & Spice"
            stored_world)
     = Returned (StrObj "An error occurred (ValidationException) when calling the GetItem operation: One or more parameter values are not valid. The AttributeValue for a key attribute cannot contain an empty string value. Key: booking_id").
Proof.
  split; [|split; [|split]].
  - apply (get_booking_details_cases "bookings" "01234567" "Rice & Spice"
             stored_world); reflexivity.
  - apply (get_booking_details_cases "bookings" "01234567" "Rice & Spice"
             empty_world); [reflexivity|reflexivity| |reflexivity].
    exists ∅. reflexivity.
  - apply (get_booking_details_cases "bookings" "01234567" "Rice & Spice"
             failing_world); reflexivity.
  - apply (proj2 (proj2 (proj2 (get_booking_details_cases "bookings"
                                  EmptyString "Rice & Spice" stored_world))));
      [reflexivity| |reflexivity].
    exists {[ ("01234567", "Rice & Spice") := anna_item ]}. reflexivity.
Defined.

(** C10.  [get_booking_details] is declared to return a dict, and it
    returns one, the stored record, when the get-item call answers and
    the compound key is in the table, and only then.  When the call
    answers and the key is not in the table it returns a string, the
    not-found text, and when the call raises an exception it returns a
    string, the exception's [str]. *)
Theorem get_booking_details_str_unless_present
    (table booking_id restaurant_name : string) (w : MemWorld) :
  (forall e : exc,
     fst (Table_get_item table (Key booking_id restaurant_name) w)
     = Raised e ->
     is_Exception e = true ->
     fst (get_booking_details table booking_id restaurant_name w)
     = Returned (StrObj (str_exc e)))
  /\ (next_fault w = None ->
      key_rule w (booking_id, restaurant_name) = None ->
      is_Some (tables w !! table) ->
      booking w table booking_id restaurant_name = None ->
      fst (get_booking_details table booking_id restaurant_name w)
      = Returned (StrObj ("No booking found with ID " ++ booking_id)))
  /\ (forall d : dict,
        next_fault w = None ->
        key_rule w (booking_id, restaurant_name) = None ->
        booking w table booking_id restaurant_name = Some d ->
        fst (get_booking_details table booking_id restaurant_name w)
        = Returned (DictObj d))
  /\ (forall d : dict,
        fst (get_booking_details table booking_id restaurant_name w)
        = Returned (DictObj d) ->
        next_fault w = None
        /\ key_rule w (booking_id, restaurant_name) = None
        /\ booking w table booking_id restaurant_name = Some d).
Proof.
  rewrite get_booking_details_step, mem_get_item_Key. unfold booking.
  destruct (next_fault w) as [e0|]; simpl.
  - split; [|split; [|split]].
    + intros e He HE. inversion He; subst e0. rewrite HE. reflexivity.
    + discriminate.
    + discriminate.
    + intros d Hd. destruct (is_Exception e0); discriminate.
  - destruct (tables w !! table) as [t|]; simpl.
    + destruct (key_rule w (booking_id, restaurant_name)) as [reason|]; simpl.
      * split; [|split; [|split]]; try discriminate.
        intros e He HE. inversion He; subst e. reflexivity.
      * split; [|split; [|split]].
        -- discriminate.
        -- intros _ _ _ ->. reflexivity.
        -- intros d _ _ ->. reflexivity.
        -- intros d Hd. destruct (t !! _); inversion Hd. auto.
    + split; [|split; [|split]].
      * intros e He HE. inversion He; subst e. reflexivity.
      * intros _ _ [t Ht]. discriminate.
      * discriminate.
      * discriminate.
Qed.

Lemma get_booking_details_str_unless_present_witness :
  fst (get_booking_details "bookings" "01234567" "Rice & Spice" failing_world)
    = Returned (StrObj (str_exc throttled))
  /\ fst (get_booking_details "bookings" "01234567" "Rice & Spice" empty_world)
     = Returned (StrObj "No booking found with ID 01234567")
  /\ fst (get_booking_details "bookings" "01234567" "Rice & Spice"
            stored_world)
     = Returned (DictObj anna_item).
Proof.
  split; [|split].
  - apply (get_booking_details_str_unless_present "bookings" "01234567"
             "Rice & Spice" failing_world); reflexivity.
  - apply (get_booking_details_str_unless_present "bookings" "01234567"
             "Rice & Spice" empty_world); [reflexivity|reflexivity| |reflexivity].
    exists ∅. reflexivity.
  - apply (get_booking_details_str_unless_present "bookings" "01234567"
             "Rice & Spice" stored_world); reflexivity.
Defined.

(** ** Deleting a booking *)

(** C7.  Once [delete_booking] holds its table: if the delete-item call
    returns, the tool returns "Booking with ID <id> deleted successfully"
    when the reported HTTP status is 200 and "Failed to delete booking with
    ID <id>" when it is not, so the success message exactly when the
    status is 200; if the call raises an exception, the tool returns its
    [str] and raises nothing. *)
Theorem delete_booking_reports_status {W : Type} `{Env W}
    (booking_id restaurant_name table : string) (w w1 : W) :
  open_table w = (Returned table, w1) ->
  (forall (response : DeleteItemOutput) (w2 : W),
     Table_delete_item table (Key booking_id restaurant_name) w1
     = (Returned response, w2) ->
     (HTTPStatusCode response = 200%Z ->
      delete_booking booking_id restaurant_name w
      = (Returned ("Booking with ID " ++ booking_id ++ " deleted successfully"),
         w2))
     /\ (HTTPStatusCode response <> 200%Z ->
         delete_booking booking_id restaurant_name w
         = (Returned ("Failed to delete booking with ID " ++ booking_id), w2))
     /\ (fst (delete_booking booking_id restaurant_name w)
         = Returned ("Booking with ID " ++ booking_id ++ " deleted successfully")
         <-> HTTPStatusCode response = 200%Z))
  /\ (forall (e : exc) (w2 : W),
        Table_delete_item table (Key booking_id restaurant_name) w1
        = (Raised e, w2) ->
        is_Exception e = true ->
        delete_booking booking_id restaurant_name w
        = (Returned (str_exc e), w2)).
Proof.
  intros Hopen. split.
  - intros response w2 Hdel.
    rewrite (delete_booking_step _ _ table w w1 Hopen), Hdel.
    fold (deleted booking_id) (delete_failed booking_id).
    destruct (Z.eqb_spec (HTTPStatusCode response) 200) as [Heq|Hne].
    + split; [reflexivity|]. split; [contradiction|]. tauto.
    + split; [contradiction|]. split; [reflexivity|]. simpl. split.
      * intros Hmsg. inversion Hmsg.
      * contradiction.
  - intros e w2 Hdel HE.
    rewrite (delete_booking_step _ _ table w w1 Hopen), Hdel, HE.
    reflexivity.
Qed.

Lemma delete_booking_reports_status_witness :
  delete_booking "01234567" "Rice & Spice" answers_200
    = (Returned "Booking with ID 01234567 deleted successfully", answers_200)
  /\ delete_booking "01234567" "Rice & Spice" answers_500
     = (Returned "Failed to delete booking with ID 01234567", answers_500)
  /\ fst (delete_booking "01234567" "Rice & Spice" failing_later_world)
     = Returned (str_exc throttled).
Proof.
  split; [|split].
  - refine (proj1 (proj1 (delete_booking_reports_status
                            "01234567" "Rice & Spice" "bookings"
                            answers_200 answers_200 eq_refl)
                     {| HTTPStatusCode := 200 |} answers_200 eq_refl) eq_refl).
  - refine (proj1 (proj2 (proj1 (delete_booking_reports_status
                                   "01234567" "Rice & Spice" "bookings"
                                   answers_500 answers_500 eq_refl)
                            {| HTTPStatusCode := 500 |} answers_500
                            eq_refl)) _).
    discriminate.
  - assert (Hopen : open_table failing_later_world
                    = (Returned "bookings", popped failing_later_world))
      by (reflexivity).
    assert (Hdel : Table_delete_item "bookings" (Key "01234567" "Rice & Spice")
                     (popped failing_later_world)
                   = (Raised throttled, popped (popped failing_later_world)))
      by (reflexivity).
    rewrite (proj2 (delete_booking_reports_status
                      "01234567" "Rice & Spice" "bookings" failing_later_world
                      (popped failing_later_world) Hopen)
               throttled (popped (popped failing_later_world)) Hdel eq_refl).
    reflexivity.
Defined.

(** C2, as the code has it.  When the parameter store and the table
    answer, for a pair the table takes as a key, [delete_booking] returns
    the success message whether or not the pair was in the table (the
    table reports status 200 for both) and raises nothing; afterwards no
    record is under the pair, every other key holds what it held, and a
    lookup of the pair that answers reports "No booking found with ID
    <id>".  Deleting a pair that was not there leaves the tables as they
    were. *)
Theorem delete_booking_then_lookup (booking_id restaurant_name table : string)
    (t : gmap (string * string) dict) (w : MemWorld) :
  ssm w !! "restaurant-assistant-table-name" = Some table ->
  tables w !! table = Some t ->
  key_rule w (booking_id, restaurant_name) = None ->
  next_fault w = None ->
  next_fault (popped w) = None ->
  let w' := snd (delete_booking booking_id restaurant_name w) in
  fst (delete_booking booking_id restaurant_name w)
    = Returned ("Booking with ID " ++ booking_id ++ " deleted successfully")
  /\ booking w' table booking_id restaurant_name = None
  /\ (forall id' r',
        (id', r') <> (booking_id, restaurant_name) ->
        booking w' table id' r' = booking w table id' r')
  /\ (next_fault w' = None ->
      fst (get_booking_details table booking_id restaurant_name w')
      = Returned (StrObj ("No booking found with ID " ++ booking_id)))
  /\ (booking w table booking_id restaurant_name = None ->
      tables w' = tables w).
Proof.
  intros Hssm Ht Hkey Hnext Hnext' w'.
  assert (Hopen : open_table w = (Returned table, popped w))
    by (rewrite mem_open_table, Hnext, Hssm; reflexivity).
  assert (Hrun : delete_booking booking_id restaurant_name w
                 = (Returned (deleted booking_id),
                    with_tables
                      (<[table := delete (booking_id, restaurant_name) t]>
                         (tables w))
                      (popped (popped w)))).
  { rewrite (delete_booking_step _ _ table w (popped w) Hopen).
    rewrite mem_delete_item_Key, Hnext'. simpl. rewrite Ht, Hkey.
    reflexivity. }
  subst w'. rewrite Hrun. simpl.
  split; [reflexivity|].
  assert (Hgone : booking
                    (with_tables
                       (<[table := delete (booking_id, restaurant_name) t]>
                          (tables w)) (popped (popped w)))
                    table booking_id restaurant_name = None).
  { unfold booking. simpl. rewrite lookup_insert_eq. simpl.
    apply lookup_delete_eq. }
  split; [exact Hgone|]. split; [|split].
  - intros id' r' Hne. unfold booking. simpl.
    rewrite lookup_insert_eq, Ht. simpl.
    apply lookup_delete_ne. congruence.
  - intros Hnext''.
    rewrite (mem_get_booking_details table booking_id restaurant_name _
               (delete (booking_id, restaurant_name) t) Hnext'').
    + rewrite lookup_delete_eq. reflexivity.
    + simpl. apply lookup_insert_eq.
    + exact Hkey.
  - intros Habsent. unfold booking in Habsent. rewrite Ht in Habsent.
    simpl in Habsent. rewrite delete_id by assumption.
    apply insert_id. assumption.
Qed.

Lemma delete_booking_then_lookup_witness :
  booking stored_world "bookings" "01234567" "Rice & Spice" = Some anna_item
  /\ fst (delete_booking "01234567" "Rice & Spice" stored_world)
     = Returned "Booking with ID 01234567 deleted successfully"
  /\ booking (snd (delete_booking "01234567" "Rice & Spice" stored_world))
       "bookings" "01234567" "Rice & Spice" = None
  /\ (next_fault (snd (delete_booking "01234567" "Rice & Spice" stored_world))
      = None ->
      fst (get_booking_details "bookings" "01234567" "Rice & Spice"
             (snd (delete_booking "01234567" "Rice & Spice" stored_world)))
      = Returned (StrObj "No booking found with ID 01234567")).
Proof.
  assert (Hssm : ssm stored_world !! "restaurant-assistant-table-name"
                 = Some "bookings")
    by (reflexivity).
  assert (Ht : tables stored_world !! "bookings"
               = Some {[ ("01234567", "Rice & Spice") := anna_item ]})
    by (reflexivity).
  destruct (delete_booking_then_lookup "01234567" "Rice & Spice" "bookings"
              _ stored_world Hssm Ht eq_refl eq_refl eq_refl)
    as (Hmsg & Hgone & _ & Hget & _).
  split; [reflexivity|].
  split; [exact Hmsg|]. split; [exact Hgone|exact Hget].
Defined.

(** C2 as the specification states it fails in its second half: the tool decides
    between its two messages on the HTTP status alone, and a key-value
    table answers 200 to deleting a key it does not hold.  Deleting from
    an empty table reports success, not failure. *)
Lemma delete_booking_absent_reports_success :
  booking empty_world "bookings" "deadbeef" "Rice & Spice" = None
  /\ fst (delete_booking "deadbeef" "Rice & Spice" empty_world)
     = Returned "Booking with ID deadbeef deleted successfully"
  /\ fst (delete_booking "deadbeef" "Rice & Spice" empty_world)
     <> Returned "Failed to delete booking with ID deadbeef".
Proof.
  split; [reflexivity|].
  assert (Hrun : fst (delete_booking "deadbeef" "Rice & Spice" empty_world)
                 = Returned "Booking with ID deadbeef deleted successfully")
    by (reflexivity).
  split; [exact Hrun|]. rewrite Hrun. discriminate.
Qed.

(** ** Faults and how the tools report them *)

Section Faults.
Context {W : Type} `{Env W}.

(** A result tagged "error" comes from an exception caught in the [try]
    block: the draw or the write raised it. *)
Lemma create_booking_returned_inv (tool : ToolUse.t) (w w' : W)
    (res : ToolResult.t) :
  create_booking tool w = (Returned res, w') ->
  (exists rnd (w3 : W) table,
     res = created (ToolUse.toolUseId tool) (id_of_draw rnd)
     /\ Table_put_item table
          (booking_item (id_of_draw rnd) (ToolUse.input tool)) w3
        = (Returned tt, w'))
  \/ (exists e (w2 : W),
        is_Exception e = true
        /\ res = create_failed (ToolUse.toolUseId tool) e
        /\ (urandom16 w2 = (Raised e, w')
            \/ exists rnd (w3 : W) table,
                 urandom16 w2 = (Returned rnd, w3)
                 /\ Table_put_item table
                      (booking_item (id_of_draw rnd) (ToolUse.input tool)) w3
                    = (Raised e, w'))).
Proof.
  intros Hrun.
  destruct (open_table w) as [[table|e] w1] eqn:Hopen.
  2:{ unfold create_booking, bind at 1 in Hrun. rewrite Hopen in Hrun.
      discriminate. }
  destruct (print (announcement (ToolUse.input tool)) w1) as [[[]|e] w2]
    eqn:Hprint.
  2:{ unfold create_booking, bind at 1 in Hrun. rewrite Hopen in Hrun.
      unfold bind at 1 in Hrun.
      fold (announcement (ToolUse.input tool)) in Hrun.
      rewrite Hprint in Hrun. discriminate. }
  rewrite (create_booking_step tool table w w1 w2 Hopen Hprint) in Hrun.
  destruct (urandom16 w2) as [[rnd|e] w3] eqn:Hrnd.
  - destruct (Table_put_item _ _ w3) as [[[]|e] w4] eqn:Hput.
    + inversion Hrun; subst. left. exists rnd, w3, table. auto.
    + destruct (is_Exception e) eqn:HE; inversion Hrun; subst.
      right. exists e, w2. split; [assumption|]. split; [reflexivity|].
      right. exists rnd, w3, table. auto.
  - destruct (is_Exception e) eqn:HE; inversion Hrun; subst.
    right. exists e, w2. auto.
Qed.

End Faults.



(** ** The streaming endpoint *)

Lemma stream_of_items_ending {A : Type} (s : stream A) :
  stream_of (items s) (ending s) = s.
Proof. induction s as [|a rest IH|e]; simpl; congruence. Qed.

Lemma ending_stream_of {A : Type} (l : list A) (e : option exc) :
  ending (stream_of l e) = e.
Proof.
  induction l as [|a l IH]; [destruct e; reflexivity|exact IH].
Qed.

Lemma items_stream_of {A : Type} (l : list A) (e : option exc) :
  items (stream_of l e) = l.
Proof.
  induction l as [|a l IH]; [destruct e; reflexivity|].
  simpl. rewrite IH. reflexivity.
Qed.

(** The loop over a stream given by its events and its ending. *)
Lemma forward_stream_of (events : list dict) (e : option exc) :
  forward (stream_of events e) =
  match e with
  | None => stream_of (omap (fun event : dict => event !! "data") events) None
  | Some e =>
      if is_Exception e
      then stream_of (omap (fun event : dict => event !! "data") events
                        ++ [Str ("Error: " ++ str_exc e)]) None
      else stream_of (omap (fun event : dict => event !! "data") events)
             (Some e)
  end.
Proof.
  induction events as [|event events IH].
  - destruct e as [e|]; [|reflexivity]. simpl.
    destruct (is_Exception e); reflexivity.
  - cbn [stream_of forward omap list_omap]. rewrite IH.
    destruct (event !! "data") as [data|]; [|reflexivity].
    destruct e as [e|]; [|reflexivity]. destruct (is_Exception e); reflexivity.
Qed.

(** The values under "data", taken in order, pair off with the events that
    have one. *)
Lemma omap_data_filter (events : list dict) :
  Forall2 (fun (event : dict) (chunk : value) => event !! "data" = Some chunk)
    (filter has_data events)
    (omap (fun event : dict => event !! "data") events).
Proof.
  induction events as [|event events IH].
  - constructor.
  - rewrite filter_cons. cbn [omap list_omap].
    destruct (decide (has_data event)) as [[data Hdata]|Hno].
    + rewrite Hdata. constructor; assumption.
    + destruct (event !! "data") as [data|] eqn:Hdata; [|assumption].
      exfalso. apply Hno. exists data. assumption.
Qed.

(** C5.  When the agent's stream yields the events [events] and ends
    without a fault, the body of the endpoint's response is made of the
    values under "data" of the events that have a "data" key, one chunk
    for each such event and in the events' order, and of nothing else:
    events without "data" (tool selections, lifecycle markers) give no
    chunk. *)
Theorem stream_response_forwards_text_events
    (Agent : list string -> outcome agent) (request : PromptRequest)
    (ag : agent) (events : list dict) :
  Agent ["calculator"; "weather_forecast"] = Returned ag ->
  stream_async ag (prompt request) = stream_of events None ->
  exists chunks : list value,
    body_iterator (stream_response Agent request) = stream_of chunks None
    /\ chunks = omap (fun event : dict => event !! "data") events
    /\ Forall2
         (fun (event : dict) (chunk : value) => event !! "data" = Some chunk)
         (filter has_data events) chunks.
Proof.
  intros Hagent Hevents.
  exists (omap (fun event : dict => event !! "data") events).
  split; [|split; [reflexivity|apply omap_data_filter]].
  unfold stream_response, StreamingResponse, generate. simpl.
  rewrite Hagent, Hevents. apply (forward_stream_of events None).
Qed.

Lemma stream_response_forwards_text_events_witness :
  replaying None ["calculator"; "weather_forecast"] = Returned (replay None)
  /\ stream_async (replay None) (prompt say_hello) = stream_of demo_events None
  /\ body_iterator (stream_response (replaying None) say_hello)
     = Yield (Str "Hello") (Yield (Str " world") Exhausted).
Proof.
  split; [reflexivity|]. split; [reflexivity|].
  destruct (stream_response_forwards_text_events (replaying None) say_hello
              (replay None)
              demo_events eq_refl eq_refl) as (chunks & Hbody & -> & _).
  rewrite Hbody. reflexivity.
Defined.

(** C6.  When iterating the agent's stream raises an exception after
    the events [events], the endpoint catches it: the response body is the
    chunks of those events followed by one last chunk, "Error: " and the
    exception's [str], and then ends; the response keeps the status 200 it
    was built with, whatever the stream does. *)
Theorem stream_response_fault_is_last_chunk
    (Agent : list string -> outcome agent) (request : PromptRequest)
    (ag : agent) (events : list dict) (e : exc) :
  Agent ["calculator"; "weather_forecast"] = Returned ag ->
  stream_async ag (prompt request) = stream_of events (Some e) ->
  is_Exception e = true ->
  body_iterator (stream_response Agent request)
    = stream_of (omap (fun event : dict => event !! "data") events
                   ++ [Str ("Error: " ++ str_exc e)]) None
  /\ ending (body_iterator (stream_response Agent request)) = None
  /\ status_code (stream_response Agent request) = 200%Z.
Proof.
  intros Hagent Hevents HE.
  assert (Hbody : body_iterator (stream_response Agent request)
                  = stream_of (omap (fun event : dict => event !! "data") events
                                 ++ [Str ("Error: " ++ str_exc e)]) None).
  { unfold stream_response, StreamingResponse, generate. simpl.
    rewrite Hagent, Hevents, (forward_stream_of events (Some e)), HE.
    reflexivity. }
  split; [exact Hbody|]. split; [|reflexivity].
  rewrite Hbody. apply ending_stream_of.
Qed.

Lemma stream_response_fault_is_last_chunk_witness :
  replaying (Some model_timeout) ["calculator"; "weather_forecast"]
    = Returned (replay (Some model_timeout))
  /\ stream_async (replay (Some model_timeout)) (prompt say_hello)
     = stream_of demo_events (Some model_timeout)
  /\ is_Exception model_timeout = true
  /\ body_iterator (stream_response (replaying (Some model_timeout)) say_hello)
     = Yield (Str "Hello")
         (Yield (Str " world")
            (Yield (Str "Error: Read timed out") Exhausted))
  /\ status_code (stream_response (replaying (Some model_timeout)) say_hello)
     = 200%Z.
Proof.
  split; [reflexivity|]. split; [reflexivity|]. split; [reflexivity|].
  destruct (stream_response_fault_is_last_chunk
              (replaying (Some model_timeout)) say_hello
              (replay (Some model_timeout)) demo_events model_timeout
              eq_refl eq_refl eq_refl) as (Hbody & _ & Hstatus).
  split; [|exact Hstatus].
  rewrite Hbody. reflexivity.
Defined.

(** ** The scenario end to end *)

Example uuid_str_example :
  uuid.str (uuid.uuid4 draw_0123) = "01234567-89ab-4def-8123-456789abcdef".
Proof. reflexivity. Qed.

Example uuid_str_of_a_small_draw :
  slice_to 8 (uuid.str (uuid.uuid4 5)) = "00000000".
Proof. reflexivity. Qed.

(** Create Anna's booking, look it up, delete it, look it up again. *)
Example booking_scenario :
  let '(r1, w1) := create_booking anna fresh_world in
  let '(r2, w2) := get_booking_details "bookings" "01234567" "Rice & Spice" w1 in
  let '(r3, w3) := delete_booking "01234567" "Rice & Spice" w2 in
  let '(r4, _) := get_booking_details "bookings" "01234567" "Rice & Spice" w3 in
  r1 = Returned (created "tooluse_1" "01234567")
  /\ r2 = Returned (DictObj anna_item)
  /\ r3 = Returned "Booking with ID 01234567 deleted successfully"
  /\ r4 = Returned (StrObj "No booking found with ID 01234567")
  /\ stdout w1
     = [ "Creating reservation for 4 people at Rice & Spice, 2025-12-01 at 20:00 in the name of Anna" ].
Proof. vm_compute. repeat split. Qed.

(** What is not an [Exception] goes through every [except Exception]. *)
Example interrupt_is_not_caught :
  fst (get_booking_details "bookings" "01234567" "Rice & Spice"
         (bookings_world ∅ [Some (Exc false "KeyboardInterrupt")] []))
  = Raised (Exc false "KeyboardInterrupt").
Proof. reflexivity. Qed.

(** A fault of the parameter store, before the [try], is not caught. *)
Example delete_booking_without_parameter :
  fst (delete_booking "01234567" "Rice & Spice" failing_world)
  = Raised throttled.
Proof. reflexivity. Qed.

(** * More properties of the notebook's code *)

(** ** The tools in the in-memory world, call by call *)

Lemma mem_delete_booking_run (booking_id restaurant_name : string)
    (w : MemWorld) :
  delete_booking booking_id restaurant_name w =
  match next_fault w with
  | Some e => (Raised e, popped w)
  | None =>
      match ssm w !! "restaurant-assistant-table-name" with
      | None => (Raised ParameterNotFound, popped w)
      | Some table =>
          match next_fault (popped w) with
          | Some e =>
              (if is_Exception e then Returned (str_exc e) else Raised e,
               popped (popped w))
          | None =>
              match tables w !! table with
              | None =>
                  (Returned (str_exc (ResourceNotFound "DeleteItem")),
                   popped (popped w))
              | Some t =>
                  match key_rule w (booking_id, restaurant_name) with
                  | Some reason =>
                      (Returned
                         (str_exc (ValidationException "DeleteItem" reason)),
                       popped (popped w))
                  | None =>
                      (Returned (deleted booking_id),
                       with_tables
                         (<[table := delete (booking_id, restaurant_name) t]>
                            (tables w))
                         (popped (popped w)))
                  end
              end
          end
      end
  end.
Proof.
  pose proof (mem_open_table w) as Hopen.
  destruct (next_fault w) as [e|].
  { apply delete_booking_not_open. exact Hopen. }
  destruct (ssm w !! "restaurant-assistant-table-name") as [table|].
  2:{ apply delete_booking_not_open. exact Hopen. }
  rewrite (delete_booking_step _ _ table w (popped w) Hopen).
  rewrite mem_delete_item_Key.
  destruct (next_fault (popped w)) as [e|].
  { destruct (is_Exception e); reflexivity. }
  simpl. destruct (tables w !! table); [|reflexivity].
  destruct (key_rule w _); reflexivity.
Qed.

Lemma mem_create_booking_run (tool : ToolUse.t) (w : MemWorld) :
  create_booking tool w =
  match next_fault w with
  | Some e => (Raised e, popped w)
  | None =>
      match ssm w !! "restaurant-assistant-table-name" with
      | None => (Raised ParameterNotFound, popped w)
      | Some table =>
          let w3 :=
            with_entropy (tail (entropy w))
              (with_stdout (stdout w ++ [announcement (ToolUse.input tool)])
                 (popped w)) in
          let booking_id := id_of_draw (hd 0%N (entropy w)) in
          let item := booking_item booking_id (ToolUse.input tool) in
          let failed (e : exc) (w' : MemWorld) :=
            (if is_Exception e
             then Returned (create_failed (ToolUse.toolUseId tool) e)
             else Raised e, w') in
          match client_rule w item with
          | Some e => failed e w3
          | None =>
              match next_fault w3 with
              | Some e => failed e (popped w3)
              | None =>
                  match tables w !! table with
                  | None => failed (ResourceNotFound "PutItem") (popped w3)
                  | Some t =>
                      match
                        key_rule w
                          (booking_id,
                           ToolUse.restaurant_name (ToolUse.input tool))
                      with
                      | Some reason =>
                          failed (ValidationException "PutItem" reason)
                            (popped w3)
                      | None =>
                          match item_rule w item with
                          | Some reason =>
                              failed (ValidationException "PutItem" reason)
                                (popped w3)
                          | None =>
                              (Returned
                                 (created (ToolUse.toolUseId tool) booking_id),
                               with_tables
                                 (<[table :=
                                      <[(booking_id,
                                         ToolUse.restaurant_name
                                           (ToolUse.input tool)) := item]> t]>
                                    (tables w))
                                 (popped w3))
                          end
                      end
                  end
              end
          end
      end
  end.
Proof.
  pose proof (mem_open_table w) as Hopen.
  destruct (next_fault w) as [e|].
  { unfold create_booking, bind at 1. rewrite Hopen. reflexivity. }
  destruct (ssm w !! "restaurant-assistant-table-name") as [table|].
  2:{ unfold create_booking, bind at 1. rewrite Hopen. reflexivity. }
  rewrite (create_booking_step tool table w (popped w)
             (with_stdout (stdout w ++ [announcement (ToolUse.input tool)])
                (popped w)) Hopen eq_refl).
  cbn [urandom16 MemWorld_Env]. unfold mem_urandom16.
  rewrite mem_put_booking_item. cbn zeta.
  change (entropy (with_stdout (stdout w ++ [announcement (ToolUse.input tool)])
                     (popped w))) with (entropy w).
  change (client_rule
            (with_entropy (tail (entropy w))
               (with_stdout (stdout w ++ [announcement (ToolUse.input tool)])
                  (popped w)))) with (client_rule w).
  destruct (client_rule w _) as [e|].
  { destruct (is_Exception e); reflexivity. }
  destruct (next_fault _) as [e|].
  { destruct (is_Exception e); reflexivity. }
  change (tables (with_entropy (tail (entropy w))
                    (with_stdout
                       (stdout w ++ [announcement (ToolUse.input tool)])
                       (popped w)))) with (tables w).
  destruct (tables w !! table); [|reflexivity].
  change (key_rule
            (with_entropy (tail (entropy w))
               (with_stdout (stdout w ++ [announcement (ToolUse.input tool)])
                  (popped w)))) with (key_rule w).
  destruct (key_rule w _); [reflexivity|].
  change (item_rule
            (with_entropy (tail (entropy w))
               (with_stdout (stdout w ++ [announcement (ToolUse.input tool)])
                  (popped w)))) with (item_rule w).
  destruct (item_rule w _); reflexivity.
Qed.

(** ** What the tools let through *)

(** X1.  [delete_booking] and [create_booking] fetch the table's name
    before their [try]: when that call raises, whatever it raises (an
    [Exception] too), the tool raises the same thing and makes no other
    call. *)
Theorem parameter_fault_is_not_caught {W : Type} `{Env W} (w w1 : W) (e : exc) :
  open_table w = (Raised e, w1) ->
  (forall booking_id restaurant_name : string,
     delete_booking booking_id restaurant_name w = (Raised e, w1))
  /\ (forall tool : ToolUse.t, create_booking tool w = (Raised e, w1)).
Proof.
  intros Hopen. split.
  - intros booking_id restaurant_name.
    apply delete_booking_not_open. exact Hopen.
  - intros tool. unfold create_booking, bind at 1. rewrite Hopen. reflexivity.
Qed.

Lemma parameter_fault_is_not_caught_witness :
  open_table failing_world = (Raised throttled, popped failing_world)
  /\ is_Exception throttled = true
  /\ delete_booking "01234567" "Rice & Spice" failing_world
     = (Raised throttled, popped failing_world)
  /\ create_booking anna failing_world
     = (Raised throttled, popped failing_world).
Proof.
  assert (Hopen : open_table failing_world
                  = (Raised throttled, popped failing_world))
    by (reflexivity).
  split; [exact Hopen|]. split; [reflexivity|].
  destruct (parameter_fault_is_not_caught failing_world
              (popped failing_world) throttled Hopen) as [Hdel Hcreate].
  split; [apply Hdel|apply Hcreate].
Defined.

(** X2.  What a table call raises that is not an [Exception] is not
    turned into a string or an "error" result: each of the three tools
    raises it. *)
Theorem interrupt_passes_through_the_tools {W : Type} `{Env W} (e : exc) :
  is_Exception e = false ->
  (forall (table booking_id restaurant_name : string) (w w' : W),
     Table_get_item table (Key booking_id restaurant_name) w = (Raised e, w') ->
     get_booking_details table booking_id restaurant_name w = (Raised e, w'))
  /\ (forall (booking_id restaurant_name table : string) (w w1 w2 : W),
        open_table w = (Returned table, w1) ->
        Table_delete_item table (Key booking_id restaurant_name) w1
        = (Raised e, w2) ->
        delete_booking booking_id restaurant_name w = (Raised e, w2))
  /\ (forall (tool : ToolUse.t) (table : string) (w w1 w2 w3 w4 : W) (rnd : N),
        open_table w = (Returned table, w1) ->
        print (announcement (ToolUse.input tool)) w1 = (Returned tt, w2) ->
        urandom16 w2 = (Returned rnd, w3) ->
        Table_put_item table
          (booking_item (id_of_draw rnd) (ToolUse.input tool)) w3
        = (Raised e, w4) ->
        create_booking tool w = (Raised e, w4)).
Proof.
  intros HE. split; [|split].
  - intros table booking_id restaurant_name w w' Hget.
    rewrite get_booking_details_step, Hget, HE. reflexivity.
  - intros booking_id restaurant_name table w w1 w2 Hopen Hdel.
    rewrite (delete_booking_step _ _ table w w1 Hopen), Hdel, HE.
    reflexivity.
  - intros tool table w w1 w2 w3 w4 rnd Hopen Hprint Hrnd Hput.
    rewrite (create_booking_step tool table w w1 w2 Hopen Hprint).
    rewrite Hrnd, Hput, HE. reflexivity.
Qed.

Lemma interrupt_passes_through_the_tools_witness :
  is_Exception interrupt = false
  /\ fst (get_booking_details "bookings" "01234567" "Rice & Spice"
            interrupted_world) = Raised interrupt
  /\ fst (delete_booking "01234567" "Rice & Spice" interrupted_later_world)
     = Raised interrupt
  /\ fst (create_booking anna interrupted_later_world) = Raised interrupt.
Proof.
  split; [reflexivity|].
  destruct (interrupt_passes_through_the_tools (W := MemWorld) interrupt
              eq_refl) as (Hget & Hdel & Hcreate).
  split; [|split].
  - rewrite (Hget "bookings" "01234567" "Rice & Spice" interrupted_world
               (popped interrupted_world)); [reflexivity|].
    reflexivity.
  - rewrite (Hdel "01234567" "Rice & Spice" "bookings"
               interrupted_later_world (popped interrupted_later_world)
               (popped (popped interrupted_later_world)));
      [reflexivity| |]; reflexivity.
  - rewrite (Hcreate anna "bookings" interrupted_later_world
               (popped interrupted_later_world)
               (with_stdout [announcement (ToolUse.input anna)]
                  (popped interrupted_later_world))
               (with_entropy []
                  (with_stdout [announcement (ToolUse.input anna)]
                     (popped interrupted_later_world)))
               (popped
                  (with_entropy []
                     (with_stdout [announcement (ToolUse.input anna)]
                        (popped interrupted_later_world))))
               draw_0123);
      [reflexivity| | | |]; reflexivity.
Defined.

(** X3.  Whatever [create_booking] returns, success or error, carries
    the [toolUseId] of the request it answers and exactly one content
    block. *)
Theorem create_booking_echoes_tool_use_id {W : Type} `{Env W}
    (tool : ToolUse.t) (w w' : W) (res : ToolResult.t) :
  create_booking tool w = (Returned res, w') ->
  ToolResult.toolUseId res = ToolUse.toolUseId tool
  /\ length (ToolResult.content res) = 1%nat.
Proof.
  intros Hrun.
  destruct (create_booking_returned_inv tool w w' res Hrun)
    as [(rnd & w3 & table & -> & _)|(e & w2 & _ & -> & _)];
    split; reflexivity.
Qed.

Lemma create_booking_echoes_tool_use_id_witness :
  create_booking anna failing_later_world
    = (Returned (create_failed "tooluse_1" throttled),
       snd (create_booking anna failing_later_world))
  /\ ToolResult.toolUseId (create_failed "tooluse_1" throttled)
     = ToolUse.toolUseId anna.
Proof.
  assert (Hrun : create_booking anna failing_later_world
                 = (Returned (create_failed "tooluse_1" throttled),
                    snd (create_booking anna failing_later_world)))
    by (reflexivity).
  split; [exact Hrun|].
  exact (proj1 (create_booking_echoes_tool_use_id anna failing_later_world
                  _ _ Hrun)).
Defined.

(** ** What the tools change *)

(** X4.  A lookup writes nothing: whether it finds the record, misses it
    or meets a fault, the tables, the parameters, the output and the
    random source are what they were; one service call was made. *)
Theorem get_booking_details_changes_nothing
    (table booking_id restaurant_name : string) (w : MemWorld) :
  let w' := snd (get_booking_details table booking_id restaurant_name w) in
  tables w' = tables w
  /\ ssm w' = ssm w
  /\ stdout w' = stdout w
  /\ entropy w' = entropy w
  /\ script w' = tail (script w).
Proof.
  rewrite get_booking_details_step, mem_get_item_Key.
  destruct (next_fault w) as [e|].
  - destruct (is_Exception e); repeat split.
  - destruct (tables w !! table); [|repeat split].
    destruct (key_rule w _); repeat split.
Qed.

(** X5.  Creating a booking under an identifier the table did not hold
    and then deleting it by the returned identifier and the restaurant
    name puts every table back as it was before the creation. *)
Theorem create_then_delete_restores (tool : ToolUse.t) (w w1 : MemWorld)
    (res : ToolResult.t) (table : string) :
  create_booking tool w = (Returned res, w1) ->
  ToolResult.status res = "success" ->
  let booking_id := slice_to 8 (uuid.str (uuid.uuid4 (hd 0%N (entropy w)))) in
  let restaurant_name := ToolUse.restaurant_name (ToolUse.input tool) in
  ssm w !! "restaurant-assistant-table-name" = Some table ->
  booking w table booking_id restaurant_name = None ->
  next_fault w1 = None ->
  next_fault (popped w1) = None ->
  fst (delete_booking booking_id restaurant_name w1)
    = Returned ("Booking with ID " ++ booking_id ++ " deleted successfully")
  /\ tables (snd (delete_booking booking_id restaurant_name w1)) = tables w.
Proof.
  intros Hrun Hstatus booking_id restaurant_name Hssm Hfresh Hnext Hnext'.
  rewrite mem_create_booking_run, Hssm in Hrun.
  destruct (next_fault w); [discriminate|].
  cbn zeta in Hrun.
  destruct (client_rule w _) as [e|];
    [destruct (is_Exception e); inversion Hrun; subst; discriminate|].
  destruct (next_fault _) as [e|];
    [destruct (is_Exception e); inversion Hrun; subst; discriminate|].
  unfold booking in Hfresh.
  destruct (tables w !! table) as [t|] eqn:Ht;
    [|inversion Hrun; subst; discriminate].
  destruct (key_rule w _) eqn:Hkey; [inversion Hrun; subst; discriminate|].
  destruct (item_rule w _); [inversion Hrun; subst; discriminate|].
  simpl in Hfresh.
  inversion Hrun; subst res w1; clear Hrun.
  rewrite mem_delete_booking_run, Hnext. simpl ssm. rewrite Hssm, Hnext'.
  simpl tables. rewrite lookup_insert_eq. simpl key_rule.
  change (key_rule w (booking_id, restaurant_name))
    with (key_rule w (id_of_draw (hd 0%N (entropy w)),
                      ToolUse.restaurant_name (ToolUse.input tool))).
  rewrite Hkey. split; [reflexivity|].
  simpl. rewrite insert_insert_eq.
  fold (id_of_draw (hd 0%N (entropy w))). fold booking_id.
  fold restaurant_name.
  rewrite delete_insert_eq, delete_id by exact Hfresh.
  apply insert_id. exact Ht.
Qed.

Lemma create_then_delete_restores_witness :
  create_booking anna fresh_world
    = (Returned (created "tooluse_1" "01234567"),
       snd (create_booking anna fresh_world))
  /\ booking fresh_world "bookings" "01234567" "Rice & Spice" = None
  /\ fst (delete_booking "01234567" "Rice & Spice"
            (snd (create_booking anna fresh_world)))
     = Returned "Booking with ID 01234567 deleted successfully"
  /\ tables (snd (delete_booking "01234567" "Rice & Spice"
                    (snd (create_booking anna fresh_world))))
     = tables fresh_world.
Proof.
  assert (Hrun : create_booking anna fresh_world
                 = (Returned (created "tooluse_1" "01234567"),
                    snd (create_booking anna fresh_world)))
    by (reflexivity).
  assert (Hssm : ssm fresh_world !! "restaurant-assistant-table-name"
                 = Some "bookings") by (reflexivity).
  assert (Hfresh : booking fresh_world "bookings" "01234567" "Rice & Spice"
                   = None) by (reflexivity).
  split; [exact Hrun|]. split; [exact Hfresh|].
  exact (create_then_delete_restores anna fresh_world _ _ "bookings"
           Hrun eq_refl Hssm Hfresh eq_refl eq_refl).
Defined.

(** X6.  Deleting the same pair, one the table takes as a key, a second
    time is told apart from the first in nothing: it returns the success
    message again and leaves the tables as the first deletion left
    them. *)
Theorem delete_booking_twice (booking_id restaurant_name table : string)
    (t : gmap (string * string) dict) (w : MemWorld) :
  ssm w !! "restaurant-assistant-table-name" = Some table ->
  tables w !! table = Some t ->
  key_rule w (booking_id, restaurant_name) = None ->
  next_fault w = None ->
  next_fault (popped w) = None ->
  let w1 := snd (delete_booking booking_id restaurant_name w) in
  next_fault w1 = None ->
  next_fault (popped w1) = None ->
  fst (delete_booking booking_id restaurant_name w1)
    = fst (delete_booking booking_id restaurant_name w)
  /\ fst (delete_booking booking_id restaurant_name w1)
     = Returned ("Booking with ID " ++ booking_id ++ " deleted successfully")
  /\ tables (snd (delete_booking booking_id restaurant_name w1)) = tables w1.
Proof.
  intros Hssm Ht Hkey Hnext Hnext' w1.
  assert (Hfirst : delete_booking booking_id restaurant_name w
                   = (Returned (deleted booking_id),
                      with_tables
                        (<[table := delete (booking_id, restaurant_name) t]>
                           (tables w))
                        (popped (popped w)))).
  { rewrite mem_delete_booking_run, Hnext, Hssm, Hnext', Ht, Hkey.
    reflexivity. }
  subst w1. rewrite Hfirst. cbn [fst snd].
  intros Hnext1 Hnext1'.
  rewrite mem_delete_booking_run, Hnext1. simpl ssm. rewrite Hssm, Hnext1'.
  simpl tables. rewrite lookup_insert_eq. simpl key_rule. rewrite Hkey.
  cbn [fst snd].
  split; [reflexivity|]. split; [reflexivity|].
  simpl. rewrite insert_insert_eq, delete_delete_eq. reflexivity.
Qed.

Lemma delete_booking_twice_witness :
  fst (delete_booking "01234567" "Rice & Spice"
         (snd (delete_booking "01234567" "Rice & Spice" stored_world)))
    = Returned "Booking with ID 01234567 deleted successfully"
  /\ tables (snd (delete_booking "01234567" "Rice & Spice"
                    (snd (delete_booking "01234567" "Rice & Spice"
                            stored_world))))
     = tables (snd (delete_booking "01234567" "Rice & Spice" stored_world)).
Proof.
  assert (Hssm : ssm stored_world !! "restaurant-assistant-table-name"
                 = Some "bookings") by (reflexivity).
  assert (Ht : tables stored_world !! "bookings"
               = Some {[ ("01234567", "Rice & Spice") := anna_item ]})
    by (reflexivity).
  destruct (delete_booking_twice "01234567" "Rice & Spice" "bookings" _
              stored_world Hssm Ht eq_refl eq_refl eq_refl eq_refl eq_refl)
    as (_ & Hmsg & Htables).
  split; [exact Hmsg|exact Htables].
Defined.



(** ** More on the streaming endpoint *)

Lemma forward_prepend (events : list dict) (s : stream dict) :
  forward (prepend events s)
  = prepend (omap (fun event : dict => event !! "data") events) (forward s).
Proof.
  induction events as [|event events IH]; [reflexivity|].
  cbn [prepend forward omap list_omap]. rewrite IH.
  destruct (event !! "data"); reflexivity.
Qed.

Lemma items_prepend {A : Type} (l : list A) (s : stream A) :
  items (prepend l s) = List.app l (items s).
Proof.
  induction l as [|a l IH]; [reflexivity|]. simpl. rewrite IH. reflexivity.
Qed.

Lemma ending_forward (s : stream dict) :
  ending (forward s) =
  match ending s with
  | Some e => if is_Exception e then None else Some e
  | None => None
  end.
Proof.
  induction s as [|event rest IH|e]; simpl.
  - reflexivity.
  - destruct (event !! "data"); exact IH.
  - destruct (is_Exception e); reflexivity.
Qed.

(** X8.  When building the agent raises, nothing catches it: the body
    raises the same thing at once, an [Exception] included, without any
    chunk and without an "Error: " text; the response still has the
    status 200 it was built with. *)
Theorem stream_response_agent_fault_is_not_caught
    (Agent : list string -> outcome agent) (request : PromptRequest)
    (e : exc) :
  Agent ["calculator"; "weather_forecast"] = Raised e ->
  body_iterator (stream_response Agent request) = Raises e
  /\ items (body_iterator (stream_response Agent request)) = []
  /\ status_code (stream_response Agent request) = 200%Z.
Proof.
  intros Hagent. unfold stream_response, StreamingResponse, generate. simpl.
  rewrite Hagent. repeat split.
Qed.

(** X9.  Once the agent is built, the body never ends by raising an
    [Exception]: it ends normally, unless the agent's stream ended with
    something that is no [Exception], which the body then raises too,
    after the chunks of the events that came first. *)
Theorem stream_response_body_ending
    (Agent : list string -> outcome agent) (request : PromptRequest)
    (ag : agent) (events : list dict) (ending_of_stream : option exc) :
  Agent ["calculator"; "weather_forecast"] = Returned ag ->
  stream_async ag (prompt request) = stream_of events ending_of_stream ->
  let body := body_iterator (stream_response Agent request) in
  (forall e : exc, ending body = Some e ->
     is_Exception e = false /\ ending_of_stream = Some e)
  /\ (forall e : exc,
        ending_of_stream = Some e -> is_Exception e = false ->
        body = stream_of (omap (fun event : dict => event !! "data") events)
                 (Some e)).
Proof.
  intros Hagent Hevents body.
  assert (Hbody : body = forward (stream_of events ending_of_stream)).
  { unfold body, stream_response, StreamingResponse, generate. simpl.
    rewrite Hagent, Hevents. reflexivity. }
  rewrite Hbody. split.
  - intros e. rewrite ending_forward, ending_stream_of.
    destruct ending_of_stream as [e'|]; [|discriminate].
    destruct (is_Exception e') eqn:HE; [discriminate|].
    intros He. inversion He; subst. auto.
  - intros e -> HE. rewrite forward_stream_of, HE. reflexivity.
Qed.

Lemma stream_response_agent_fault_is_not_caught_witness :
  failing_agent ["calculator"; "weather_forecast"] = Raised model_timeout
  /\ is_Exception model_timeout = true
  /\ body_iterator (stream_response failing_agent say_hello)
     = Raises model_timeout.
Proof.
  split; [reflexivity|]. split; [reflexivity|].
  exact (proj1 (stream_response_agent_fault_is_not_caught failing_agent
                  say_hello model_timeout eq_refl)).
Defined.

Lemma stream_response_body_ending_witness :
  replaying (Some interrupt) ["calculator"; "weather_forecast"]
    = Returned (replay (Some interrupt))
  /\ body_iterator (stream_response (replaying (Some interrupt)) say_hello)
     = Yield (Str "Hello") (Yield (Str " world") (Raises interrupt)).
Proof.
  split; [reflexivity|].
  destruct (stream_response_body_ending (replaying (Some interrupt)) say_hello
              (replay (Some interrupt)) demo_events (Some interrupt)
              eq_refl eq_refl) as [_ Hbody].
  rewrite (Hbody interrupt eq_refl eq_refl). reflexivity.
Defined.

(** X10.  The body is produced as the events come: for events followed
    by any continuation of the stream, the chunks of those events are
    forwarded first, whatever follows, and what follows is handled as if
    it came alone. *)
Theorem forward_is_incremental (events : list dict) (rest : stream dict) :
  forward (prepend events rest)
  = prepend (omap (fun event : dict => event !! "data") events) (forward rest)
  /\ items (forward (prepend events rest))
     = List.app (omap (fun event : dict => event !! "data") events)
         (items (forward rest)).
Proof.
  split; [apply forward_prepend|].
  rewrite forward_prepend. apply items_prepend.
Qed.

(** ** Reading the whole table *)

Section ScanFacts.
Context {W : Type} `{Scannable W}.

Lemma while_LastEvaluatedKey_serves (table : string) (fuel : nat) :
  forall (response : ScanOutput) (responses : list ScanOutput)
         (start : option dict) (w0 w1 w' : W) (items : list dict),
    Table_scan table start w0 = (Returned response, w1) ->
    serves table start w0 (response :: responses) w' ->
    (length responses <= fuel)%nat ->
    while_LastEvaluatedKey fuel table response items w1
    = (Returned (Some (items ++ concat (Items <$> responses))%list), w').
Proof.
  induction fuel as [|fuel IH];
    intros response responses start w0 w1 w' items Hscan Hserves Hfuel.
  - destruct responses; [|simpl in Hfuel; lia].
    inversion Hserves as [? ? ? ? Hscan' Hlast|? ? ? ? ? ? ? _ _ Hrest]; subst.
    + rewrite Hscan in Hscan'. inversion Hscan'; subst.
      simpl. rewrite Hlast, app_nil_r. reflexivity.
    + inversion Hrest.
  - inversion Hserves
      as [? ? ? ? Hscan' Hlast|? ? ? key w2 ? ? Hscan' Hkey Hrest]; subst.
    + rewrite Hscan in Hscan'. inversion Hscan'; subst.
      simpl. rewrite Hlast, app_nil_r. reflexivity.
    + rewrite Hscan in Hscan'. inversion Hscan'; subst w2. clear Hscan'.
      cbn [while_LastEvaluatedKey]. rewrite Hkey.
      destruct responses as [|response' responses'];
        [inversion Hrest|].
      assert (Hnext : exists w3,
                 Table_scan table (Some key) w1 = (Returned response', w3)).
      { inversion Hrest; subst; eauto. }
      destruct Hnext as [w3 Hnext].
      unfold bind at 1. rewrite Hnext.
      rewrite (IH response' responses' (Some key) w1 w3 w'
                 (items ++ Items response')%list Hnext Hrest)
        by (simpl in Hfuel; lia).
      simpl. rewrite <- app_assoc. reflexivity.
Qed.

(** X11.  When the table answers the successive scans with pages, each
    naming the key the next scan starts from and the last naming none,
    [selectAllFromDynamodb] returns, given a turn of the loop for every
    page after the first, the frame of all the pages' items, page after
    page in the order served. *)
Theorem selectAllFromDynamodb_concatenates_pages (table_name : string)
    (fuel : nat) (responses : list ScanOutput) (w w' : W) :
  serves table_name None w responses w' ->
  (length responses <= S fuel)%nat ->
  selectAllFromDynamodb fuel table_name w
  = (Returned (Some (pd_DataFrame (concat (Items <$> responses)))), w').
Proof.
  intros Hserves Hfuel.
  assert (Hfirst : exists response responses' w1,
             responses = response :: responses'
             /\ Table_scan table_name None w = (Returned response, w1)).
  { inversion Hserves; subst; eauto 6. }
  destruct Hfirst as (response & responses' & w1 & -> & Hscan).
  unfold selectAllFromDynamodb. cbn zeta. unfold bind at 1. rewrite Hscan.
  unfold bind at 1.
  rewrite (while_LastEvaluatedKey_serves table_name fuel response responses'
             None w w1 w' (Items response) Hscan Hserves)
    by (simpl in Hfuel; lia).
  reflexivity.
Qed.

Lemma while_LastEvaluatedKey_fails (table : string) (fuel : nat) :
  forall (n : nat) (response : ScanOutput) (key : dict) (w1 w' : W)
         (e : exc) (items : list dict),
    LastEvaluatedKey response = Some key ->
    fails table n (Some key) w1 e w' ->
    (n < fuel)%nat ->
    while_LastEvaluatedKey fuel table response items w1 = (Raised e, w').
Proof.
  induction fuel as [|fuel IH];
    intros n response key w1 w' e items Hkey Hfails Hfuel; [lia|].
  cbn [while_LastEvaluatedKey]. rewrite Hkey. unfold bind at 1.
  inversion Hfails
    as [? ? ? ? Hscan|n' ? ? response' key' w2 ? ? Hscan Hkey' Hrest]; subst.
  - rewrite Hscan. reflexivity.
  - rewrite Hscan. apply (IH n' response' key' w2 w' e); [assumption..|lia].
Qed.

(** X12.  Nothing in [selectAllFromDynamodb] catches a fault: when a
    scan raises, the first or a later one, the function raises the same
    thing, and the items of the pages read before are not returned. *)
Theorem selectAllFromDynamodb_fault_propagates (table_name : string)
    (fuel n : nat) (w w' : W) (e : exc) :
  fails table_name n None w e w' ->
  (n <= fuel)%nat ->
  selectAllFromDynamodb fuel table_name w = (Raised e, w').
Proof.
  intros Hfails Hfuel.
  unfold selectAllFromDynamodb. cbn zeta. unfold bind at 1.
  inversion Hfails
    as [? ? ? ? Hscan|n' ? ? response key w1 ? ? Hscan Hkey Hrest]; subst.
  - rewrite Hscan. reflexivity.
  - rewrite Hscan. unfold bind at 1.
    rewrite (while_LastEvaluatedKey_fails table_name fuel n' response key w1
               w' e (Items response) Hkey Hrest) by lia.
    reflexivity.
Qed.

(** X17.  The loop has no bound of its own: on a table whose every
    answer names a key to go on from, it is still running after any
    number of turns, one more scan made at each. *)
Theorem selectAllFromDynamodb_never_stops_by_itself (table_name : string)
    (fuel : nat) (w : W) :
  (forall (start : option dict) (w0 : W),
     exists (response : ScanOutput) (w1 : W),
       Table_scan table_name start w0 = (Returned response, w1)
       /\ is_Some (LastEvaluatedKey response)) ->
  exists w' : W,
    selectAllFromDynamodb fuel table_name w = (Returned None, w').
Proof.
  intros Hendless.
  assert (Hloop : forall fuel response items w1,
             is_Some (LastEvaluatedKey response) ->
             exists w',
               while_LastEvaluatedKey fuel table_name response items w1
               = (Returned None, w')).
  { clear fuel w. induction fuel as [|fuel IH];
      intros response items w1 [key Hkey].
    - exists w1. simpl. rewrite Hkey. reflexivity.
    - cbn [while_LastEvaluatedKey]. rewrite Hkey. unfold bind at 1.
      destruct (Hendless (Some key) w1) as (response' & w2 & Hscan & Hmore).
      rewrite Hscan. apply IH. exact Hmore. }
  destruct (Hendless None w) as (response & w1 & Hscan & Hmore).
  destruct (Hloop fuel response (Items response) w1 Hmore) as [w' Hw'].
  exists w'. unfold selectAllFromDynamodb. cbn zeta.
  unfold bind at 1. rewrite Hscan. unfold bind at 1. rewrite Hw'.
  reflexivity.
Qed.

End ScanFacts.

Lemma selectAllFromDynamodb_concatenates_pages_witness :
  serves "bookings" None three_bookings
    [ page_of 2 (rows three_bookings);
      page_of 2 (drop 2 (rows three_bookings)) ] three_bookings
  /\ selectAllFromDynamodb 1 "bookings" three_bookings
     = (Returned (Some (pd_DataFrame [anna_item; carla_item; dario_item])),
        three_bookings).
Proof.
  assert (Hserves : serves "bookings" None three_bookings
                      [ page_of 2 (rows three_bookings);
                        page_of 2 (drop 2 (rows three_bookings)) ]
                      three_bookings).
  { apply (serves_more "bookings" None three_bookings _
             (Key "89abcdef" "Rice & Spice") three_bookings).
    - reflexivity.
    - reflexivity.
    - apply serves_last; reflexivity. }
  split; [exact Hserves|].
  rewrite (selectAllFromDynamodb_concatenates_pages "bookings" 1 _
             three_bookings three_bookings Hserves); [|simpl; lia].
  reflexivity.
Defined.

Lemma selectAllFromDynamodb_fault_propagates_witness :
  fails "bookings" 1 None {| scans_left := 1 |} throttled {| scans_left := 0 |}
  /\ selectAllFromDynamodb 5 "bookings" {| scans_left := 1 |}
     = (Raised throttled, {| scans_left := 0 |}).
Proof.
  assert (Hfails : fails "bookings" 1 None {| scans_left := 1 |} throttled
                     {| scans_left := 0 |}).
  { apply (fails_later "bookings" 0 None {| scans_left := 1 |}
             {| Items := [anna_item];
                LastEvaluatedKey := Some (Key "01234567" "Rice & Spice") |}
             (Key "01234567" "Rice & Spice") {| scans_left := 0 |}).
    - reflexivity.
    - reflexivity.
    - apply fails_now. reflexivity. }
  split; [exact Hfails|].
  apply (selectAllFromDynamodb_fault_propagates "bookings" 5 1 _ _ _ Hfails).
  lia.
Defined.

Lemma selectAllFromDynamodb_never_stops_by_itself_witness :
  (forall (start : option dict) (w0 : EndlessTable),
     exists (response : ScanOutput) (w1 : EndlessTable),
       Table_scan "bookings" start w0 = (Returned response, w1)
       /\ is_Some (LastEvaluatedKey response))
  /\ exists w' : EndlessTable,
       selectAllFromDynamodb 100 "bookings" {| scans_made := 0 |}
       = (Returned None, w').
Proof.
  assert (Hendless : forall (start : option dict) (w0 : EndlessTable),
             exists (response : ScanOutput) (w1 : EndlessTable),
               Table_scan "bookings" start w0 = (Returned response, w1)
               /\ is_Some (LastEvaluatedKey response)).
  { intros start w0. eexists _, _. split; [reflexivity|]. simpl. eauto. }
  split; [exact Hendless|].
  exact (selectAllFromDynamodb_never_stops_by_itself "bookings" 100
           {| scans_made := 0 |} Hendless).
Defined.

(** ** A table served in pages *)

Local Open Scope list_scope.

Lemma rows_after_app (k : string * string) (v : dict)
    (l1 l2 : list ((string * string) * dict)) :
  k ∉ l1.*1 -> rows_after k (l1 ++ (k, v) :: l2) = l2.
Proof.
  induction l1 as [|[k' v'] l1 IH]; intros Hk; simpl.
  - rewrite decide_True by reflexivity. reflexivity.
  - simpl in Hk. apply not_elem_of_cons in Hk as [Hne Hk].
    rewrite decide_False by congruence. apply IH. exact Hk.
Qed.

Lemma rows_after_last (k : string * string) (v : dict)
    (pre pg rest : list ((string * string) * dict)) :
  NoDup (pre ++ pg ++ rest).*1 ->
  last pg = Some (k, v) ->
  rows_after k (pre ++ pg ++ rest) = rest.
Proof.
  intros Hnodup Hlast.
  apply last_Some in Hlast as [pg' ->].
  rewrite <- app_assoc, app_assoc. simpl.
  apply rows_after_app.
  rewrite <- app_assoc, app_assoc in Hnodup. simpl in Hnodup.
  rewrite fmap_app in Hnodup. simpl in Hnodup.
  apply NoDup_app in Hnodup as (_ & Hdisjoint & _).
  intros Hin. apply (Hdisjoint k Hin). left.
Qed.

Lemma paged_loop (table : string) (fuel : nat) :
  forall (w : PagedTable) (pre remaining : list ((string * string) * dict))
         (items : list dict),
    rows w = (pre ++ remaining)%list ->
    NoDup (rows w).*1 ->
    (0 < page w)%nat ->
    (length remaining <= S fuel)%nat ->
    while_LastEvaluatedKey fuel table (page_of (page w) remaining) items w
    = (Returned (Some (items ++ (drop (page w) remaining).*2)%list), w).
Proof.
  induction fuel as [|fuel IH];
    intros w pre remaining items Hrows Hnodup Hpage Hlen.
  - assert (Hdrop : drop (page w) remaining = []).
    { apply drop_ge. lia. }
    simpl. rewrite Hdrop. simpl. rewrite app_nil_r. reflexivity.
  - destruct (drop (page w) remaining) as [|x rest] eqn:Hdrop.
    + cbn [while_LastEvaluatedKey page_of LastEvaluatedKey].
      rewrite Hdrop. simpl. rewrite app_nil_r. reflexivity.
    + assert (Htake : take (page w) remaining <> []).
      { intros Hnil. apply (f_equal length) in Hnil.
        rewrite length_take in Hnil. simpl in Hnil.
        assert (length remaining = 0)%nat as Hzero by lia.
        apply length_zero_iff_nil in Hzero. subst remaining.
        rewrite drop_nil in Hdrop. discriminate. }
      destruct (last (take (page w) remaining)) as [[k v]|] eqn:Hlast.
      2:{ apply last_None in Hlast. contradiction. }
      cbn [while_LastEvaluatedKey page_of LastEvaluatedKey].
      rewrite Hdrop, Hlast.
      unfold bind at 1. cbn [Table_scan PagedTable_Scannable]. unfold paged_scan.
      destruct k as [b r]. cbn [fst snd]. rewrite primary_key_Key.
      assert (Hafter : rows_after (b, r) (rows w) = x :: rest).
      { rewrite <- Hdrop, Hrows.
        rewrite <- (take_drop (page w) remaining) at 1.
        apply (rows_after_last (b, r) v pre (take (page w) remaining)).
        - rewrite take_drop, <- Hrows. exact Hnodup.
        - exact Hlast. }
      rewrite Hafter, <- Hdrop.
      rewrite (IH w (pre ++ take (page w) remaining)%list
                 (drop (page w) remaining)).
      * cbn [Items page_of]. rewrite <- app_assoc, <- fmap_app, take_drop.
        reflexivity.
      * rewrite <- app_assoc, take_drop. exact Hrows.
      * exact Hnodup.
      * exact Hpage.
      * rewrite length_drop.
        assert (length (x :: rest) = length remaining - page w)%nat
          by (rewrite <- Hdrop; apply length_drop).
        simpl in *. lia.
Qed.

(** X13.  From a table that serves its rows in pages of any size from one
    up, [selectAllFromDynamodb] returns every row once, in the table's
    order, however many pages that takes, given a turn of the loop for
    every row but the first. *)
Theorem selectAllFromDynamodb_reads_every_row (table_name : string)
    (fuel : nat) (w : PagedTable) :
  NoDup (rows w).*1 ->
  (0 < page w)%nat ->
  (length (rows w) <= S fuel)%nat ->
  selectAllFromDynamodb fuel table_name w
  = (Returned (Some (pd_DataFrame (rows w).*2)), w).
Proof.
  intros Hnodup Hpage Hlen.
  unfold selectAllFromDynamodb. cbn zeta. unfold bind at 1.
  cbn [Table_scan PagedTable_Scannable]. unfold paged_scan at 1.
  unfold bind at 1.
  rewrite (paged_loop table_name fuel w [] (rows w)) by auto.
  cbn [Items page_of]. rewrite <- fmap_app, take_drop. reflexivity.
Qed.

Local Open Scope string_scope.

Lemma selectAllFromDynamodb_reads_every_row_witness :
  NoDup (rows three_bookings).*1
  /\ selectAllFromDynamodb 2 "bookings" three_bookings
     = (Returned (Some (pd_DataFrame [anna_item; carla_item; dario_item])),
        three_bookings).
Proof.
  assert (Hnodup : NoDup (rows three_bookings).*1).
  { apply (bool_decide_unpack (NoDup (rows three_bookings).*1)).
    vm_compute. exact I. }
  split; [exact Hnodup|].
  rewrite (selectAllFromDynamodb_reads_every_row "bookings" 2 three_bookings
             Hnodup); [reflexivity|simpl; lia|simpl; lia].
Defined.

(** ** Listing the tool calls of a conversation *)

Section ToolUsageFacts.
Context {W : Type} `{Env W}.
Variable str_input : dict -> string.
Variable str_content : list ToolResult.block -> string.

Lemma for_each_ext {A B : Type} (l : list A) (l' : list B)
    (body : A -> M W unit) (body' : B -> M W unit) (R : A -> B -> Prop) :
  Forall2 R l l' ->
  (forall a b, R a b -> body a = body' b) ->
  for_each l body = for_each l' body'.
Proof.
  intros Hll' Hbody. induction Hll' as [|a b l l' Hab _ IH]; [reflexivity|].
  simpl. rewrite (Hbody a b Hab), IH. reflexivity.
Qed.

Lemma print_block_alike (m m' : Message.t) (b b' : Message.block) :
  (Message.toolResult <$> head (Message.content m))
  = (Message.toolResult <$> head (Message.content m')) ->
  alike b b' ->
  print_block str_input str_content m b
  = print_block str_input str_content m' b'.
Proof.
  intros Hfirst [Huse Hresult]. unfold print_block. rewrite Huse.
  unfold has_toolResult in Hresult.
  destruct (Message.toolResult b), (Message.toolResult b');
    try discriminate; [|reflexivity].
  destruct (Message.content m) as [|first ?],
           (Message.content m') as [|first' ?];
    try discriminate; [reflexivity|].
  simpl in Hfirst. inversion Hfirst as [Hfirst']. rewrite Hfirst'.
  reflexivity.
Qed.

(** X15.  What the listing prints for a block that carries a tool
    result is the tool result of the FIRST block of its message
    ([m["content"][0]["toolResult"]]), not the block's own: two
    conversations that differ only in the tool results carried by blocks
    other than the first of their message give the same output and the
    same outcome. *)
Theorem print_tool_usage_shows_first_result (messages messages' : list Message.t)
    (w : W) :
  Forall2 same_listing messages messages' ->
  print_tool_usage str_input str_content messages w
  = print_tool_usage str_input str_content messages' w.
Proof.
  intros Hsame. unfold print_tool_usage.
  rewrite (for_each_ext messages messages' _
             (fun m' => for_each (Message.content m')
                          (fun content =>
                             print_block str_input str_content m' content))
             same_listing Hsame); [reflexivity|].
  intros m m' [Hblocks Hfirst].
  apply (for_each_ext _ _ _ _ alike Hblocks).
  intros b b' Hbb'. apply print_block_alike; assumption.
Qed.

End ToolUsageFacts.

Lemma print_tool_usage_shows_first_result_witness :
  Forall2 same_listing (two_results eight) (two_results four)
  /\ print_tool_usage plain plain_content (two_results eight) empty_world
     = print_tool_usage plain plain_content (two_results four) empty_world
  /\ stdout (snd (print_tool_usage plain plain_content (two_results eight)
                    empty_world))
     = [ "Tool Use:";
         tab ++ "ToolUseId:  tooluse_2";
         tab ++ "name:  calculator";
         tab ++ "input:  {...}";
         "Tool Result:";
         tab ++ "ToolUseId:  tooluse_2";
         tab ++ "Status:  success";
         tab ++ "Content:  [{'text': 'Result: 4'}]";
         "=======================";
         "Tool Result:";
         tab ++ "ToolUseId:  tooluse_2";
         tab ++ "Status:  success";
         tab ++ "Content:  [{'text': 'Result: 4'}]";
         "=======================" ].
Proof.
  assert (Hsame : Forall2 same_listing (two_results eight) (two_results four)).
  { repeat constructor. }
  split; [exact Hsame|]. split.
  - exact (print_tool_usage_shows_first_result plain plain_content
             (two_results eight) (two_results four) empty_world Hsame).
  - reflexivity.
Defined.

Lemma mem_print_block (m : Message.t) (first : Message.block)
    (others : list Message.block) (b : Message.block)
    (str_input : dict -> string)
    (str_content : list ToolResult.block -> string) (w : MemWorld) :
  Message.content m = first :: others ->
  fst (print_block str_input str_content m b w)
  = if has_toolResult b && negb (has_toolResult first)
    then Raised (KeyError "toolResult") else Returned tt.
Proof.
  intros Hcontent. unfold print_block, has_toolResult. rewrite Hcontent.
  destruct (Message.toolUse b), (Message.toolResult b),
           (Message.toolResult first); reflexivity.
Qed.

Lemma mem_for_each_blocks (m : Message.t) (first : Message.block)
    (others : list Message.block) (str_input : dict -> string)
    (str_content : list ToolResult.block -> string) :
  Message.content m = first :: others ->
  forall (bs : list Message.block) (w : MemWorld),
    fst (for_each bs (print_block str_input str_content m) w)
    = if existsb has_toolResult bs && negb (has_toolResult first)
      then Raised (KeyError "toolResult") else Returned tt.
Proof.
  intros Hcontent bs. induction bs as [|b bs IH]; intros w; [reflexivity|].
  cbn [for_each existsb]. unfold bind.
  pose proof (mem_print_block m first others b str_input str_content w
                Hcontent) as Hb.
  destruct (print_block str_input str_content m b w) as [[[]|e] w1];
    simpl in Hb.
  - rewrite IH.
    destruct (has_toolResult b), (has_toolResult first);
      try discriminate; simpl; try reflexivity;
      destruct (existsb has_toolResult bs); reflexivity.
  - destruct (has_toolResult b), (has_toolResult first);
      try discriminate. cbn [fst orb andb negb]. exact Hb.
Qed.

(** X14.  With an output that takes every line, the listing fails in one
    case only: a message in which some block carries a tool result while
    its first block carries none.  It then raises KeyError 'toolResult';
    for every other conversation it runs to the end. *)
Theorem print_tool_usage_outcome (messages : list Message.t)
    (str_input : dict -> string)
    (str_content : list ToolResult.block -> string) (w : MemWorld) :
  fst (print_tool_usage str_input str_content messages w)
  = if forallb result_comes_first messages
    then Returned tt else Raised (KeyError "toolResult").
Proof.
  unfold print_tool_usage. revert w.
  induction messages as [|m messages IH]; intros w; [reflexivity|].
  cbn [for_each forallb]. unfold bind.
  assert (Hm : fst (for_each (Message.content m)
                      (print_block str_input str_content m) w)
               = if result_comes_first m
                 then Returned tt else Raised (KeyError "toolResult")).
  { unfold result_comes_first.
    destruct (Message.content m) as [|first others] eqn:Hcontent;
      [reflexivity|].
    rewrite (mem_for_each_blocks m first others _ _ Hcontent).
    cbn [existsb].
    destruct (has_toolResult first), (existsb has_toolResult others);
      reflexivity. }
  destruct (for_each (Message.content m) _ w) as [[[]|e] w1]; simpl in Hm.
  - rewrite IH. destruct (result_comes_first m); [reflexivity|discriminate].
  - destruct (result_comes_first m); [discriminate|]. exact Hm.
Qed.

Example print_tool_usage_text_then_result :
  print_tool_usage plain plain_content text_then_result empty_world
  = (Raised (KeyError "toolResult"),
     with_stdout ["Tool Result:"] empty_world).
Proof. reflexivity. Qed.

(** ** The characters of an identifier *)

Lemma string_forallb_append (f : ascii -> bool) (s t : string) :
  string_forallb f (s ++ t) = string_forallb f s && string_forallb f t.
Proof.
  induction s as [|c s IH]; [reflexivity|].
  simpl. rewrite IH. apply andb_assoc.
Qed.

Lemma string_forallb_substring_0 (f : ascii -> bool) (n : nat) (s : string) :
  string_forallb f s = true -> string_forallb f (substring 0 n s) = true.
Proof.
  revert s. induction n as [|n IH]; intros [|c s] Hs; try reflexivity.
  simpl in *. apply andb_true_iff in Hs as [Hc Hs].
  rewrite Hc. apply IH. exact Hs.
Qed.

Lemma zeros_lower_hex (n : nat) : string_forallb is_lower_hex (zeros n) = true.
Proof. induction n as [|n IH]; [reflexivity|exact IH]. Qed.

Lemma of_pos_lower_hex_bounded (n : nat) :
  forall (p : positive) (rest : string),
    (Pos.size_nat p <= n)%nat ->
    string_forallb is_lower_hex rest = true ->
    string_forallb is_lower_hex (HexString.Raw.of_pos p rest) = true.
Proof.
  induction n as [|n IH]; intros p rest Hsize Hrest.
  - destruct p; simpl in Hsize; lia.
  - do 4 (try destruct p as [p|p|]); cbn [HexString.Raw.of_pos];
      try (apply IH; [simpl in Hsize; lia|]);
      cbn [string_forallb]; rewrite Hrest; reflexivity.
Qed.

Lemma of_pos_lower_hex (p : positive) (rest : string) :
  string_forallb is_lower_hex rest = true ->
  string_forallb is_lower_hex (HexString.Raw.of_pos p rest) = true.
Proof. apply (of_pos_lower_hex_bounded (Pos.size_nat p)). lia. Qed.

Lemma format_x_lower_hex (n : N) :
  string_forallb is_lower_hex (format_x n) = true.
Proof.
  destruct n as [|p]; [reflexivity|]. apply of_pos_lower_hex. reflexivity.
Qed.

(** X16.  Every identifier [create_booking] can generate is made of
    eight characters among 0-9 and a-f: no dash of the UUID's text and no
    upper-case letter reaches it. *)
Theorem booking_id_is_lower_hex (rnd : N) :
  let booking_id := slice_to 8 (uuid.str (uuid.uuid4 rnd)) in
  String.length booking_id = 8%nat
  /\ string_forallb is_lower_hex booking_id = true.
Proof.
  split; [apply booking_id_length|].
  rewrite uuid_str_slice_to_8. unfold slice_to.
  apply string_forallb_substring_0. unfold format_0x.
  rewrite string_forallb_append, zeros_lower_hex, format_x_lower_hex.
  reflexivity.
Qed.

(** ** What the table and the client library refuse *)

(** An empty identifier is no key: the table raises, and the tools hand
    back the text of what it raised. *)
Example delete_booking_empty_id :
  fst (delete_booking EmptyString "Rice & Spice" stored_world)
  = Returned "An error occurred (ValidationException) when calling the DeleteItem operation: One or more parameter values are not valid. The AttributeValue for a key attribute cannot contain an empty string value. Key: booking_id"
  /\ tables (snd (delete_booking EmptyString "Rice & Spice" stored_world))
     = tables stored_world.
Proof. split; reflexivity. Qed.

Example create_booking_without_restaurant :
  fst (create_booking nameless fresh_world)
  = Returned
      {| ToolResult.toolUseId := "tooluse_4";
         ToolResult.status := "error";
         ToolResult.content :=
           [ {| ToolResult.text := "An error occurred (ValidationException) when calling the PutItem operation: One or more parameter values are not valid. The AttributeValue for a key attribute cannot contain an empty string value. Key: restaurant_name" |} ] |}
  /\ tables (snd (create_booking nameless fresh_world)) = tables fresh_world.
Proof. split; reflexivity. Qed.

(** A number of 39 digits is not sent: the write raises before the table
    is called, whose next answer is still to come. *)
Example create_booking_for_a_crowd :
  fst (create_booking crowd failing_later_world)
  = Returned
      {| ToolResult.toolUseId := "tooluse_5";
         ToolResult.status := "error";
         ToolResult.content :=
           [ {| ToolResult.text := "[<class 'decimal.Rounded'>]" |} ] |}
  /\ tables (snd (create_booking crowd failing_later_world))
     = tables failing_later_world
  /\ script (snd (create_booking crowd failing_later_world))
     = [Some throttled].
Proof. repeat split; reflexivity. Qed.
